(** * WallMob notification relay: the classifier, the history buffer,
      the connection registry and the relay handlers of [server.js].

    The server keeps two pieces of shared state, the [Set] of connected
    sockets and the array [messageHistory], and reacts to WebSocket and
    HTTP events.  The handlers are embedded below in a small state and
    exception monad, in the order of the source file. *)

From Stdlib Require Import Bool Arith Lia List Ascii String.
Import ListNotations.
Local Open Scope string_scope.
Local Open Scope list_scope.
Local Open Scope nat_scope.

(** ** JavaScript strings

    A text is a [string], a sequence of 8-bit units.  [toLowerCase] moves
    the letters [A]-[Z] to [a]-[z] and leaves every other unit alone; the
    keywords of the classifier are made of ASCII characters, so no other
    letter takes part in a match. *)

Module Js.

Definition isUpperCase (c : ascii) : bool :=
  (65 <=? nat_of_ascii c) && (nat_of_ascii c <=? 90).

Definition toLowerCaseChar (c : ascii) : ascii :=
  if isUpperCase c then ascii_of_nat (nat_of_ascii c + 32) else c.

(** [String.prototype.toLowerCase]. *)
Fixpoint toLowerCase (s : string) : string :=
  match s with
  | EmptyString => EmptyString
  | String c s' => String (toLowerCaseChar c) (toLowerCase s')
  end.

(** [s.startsWith(p)]: [p] is read off the front of [s]. *)
Fixpoint startsWith (s p : string) {struct p} : bool :=
  match p, s with
  | EmptyString, _ => true
  | String _ _, EmptyString => false
  | String a p', String b s' => Ascii.eqb a b && startsWith s' p'
  end.

(** [String.prototype.includes]: [p] occurs in [s] at some position. *)
Fixpoint includes (s p : string) : bool :=
  match s with
  | EmptyString => startsWith EmptyString p
  | String _ s' => startsWith s p || includes s' p
  end.

(** [Array.prototype.includes] on an array of strings: strict equality
    of strings is equality of their contents. *)
Definition arrayIncludes (xs : list string) (x : string) : bool :=
  existsb (String.eqb x) xs.

(** [Array.prototype.slice(-n)]: the last [n] elements, the whole array
    when it has fewer. *)
Definition sliceLast {A : Type} (n : nat) (xs : list A) : list A :=
  skipn (List.length xs - n) xs.

End Js.

(** ** The classifier (server.js, lines 21-37) *)

Definition systemKeywords : list string :=
  [ "Initial Sync";
    "Connected to";
    "Connection successful";
    "request_initial_data";
    "ping";
    "pong";
    "heartbeat";
    "system_";
    "debug_";
    "test_connection" ].

Definition isRealNotification (message : string) : bool :=
  let lowerMessage := Js.toLowerCase message in
  negb (existsb
          (fun keyword => Js.includes lowerMessage (Js.toLowerCase keyword))
          systemKeywords).

(** ** What the specification calls a case-insensitive substring

    These definitions follow the words of the specification, not the code:
    two characters are the same letter when they are equal or when one is
    the capital of the other, and a marker occurs in a text when some
    stretch of the text spells the marker letter by letter. *)

Module Spec.

Definition denylist : list string :=
  [ "initial sync"; "connected to"; "connection successful";
    "request_initial_data"; "ping"; "pong"; "heartbeat"; "system_";
    "debug_"; "test_connection" ].

(** [u] is the capital letter of the small letter [l]. *)
Definition capitalOf (u l : ascii) : Prop :=
  65 <= nat_of_ascii u <= 90 /\ nat_of_ascii l = nat_of_ascii u + 32.

Definition sameLetter (c d : ascii) : Prop :=
  c = d \/ capitalOf c d \/ capitalOf d c.

Inductive spells : string -> string -> Prop :=
| spells_nil : spells EmptyString EmptyString
| spells_cons c d s t :
    sameLetter c d -> spells s t -> spells (String c s) (String d t).

Definition occursIgnoringCase (marker text : string) : Prop :=
  exists pre mid post,
    text = (pre ++ mid ++ post)%string /\ spells mid marker.

Definition containsMarker (text : string) : Prop :=
  exists marker, In marker denylist /\ occursIgnoringCase marker text.

End Spec.

(** ** Shared state and the outside world

    A connection is known by its identity.  What the [ws] library gives the
    server for a socket is its [readyState] and the result of [send] and
    [ping]: [None] when the call returns, [Some e] when it throws an error
    whose message is [e]. *)

Definition Conn := nat.

Inductive ReadyState := CONNECTING | OPEN | CLOSING | CLOSED.

Definition isOPEN (r : ReadyState) : bool :=
  match r with OPEN => true | _ => false end.

Record Socket := mkSocket {
  readyState : ReadyState;
  sendThrows : string -> option string;
  pingThrows : option string
}.

(** What the server did to a socket: a frame handed over by a [send] that
    returned, or a [send] that threw. *)
Inductive Output :=
| Frame (to : Conn) (data : string)
| SendError (to : Conn) (data : string).

(** [clients] is the [Set] in insertion order, [messageHistory] the array;
    [sockets] is the state of the transport and [wire] the record of every
    [send] made so far. *)
Record Server := mkServer {
  clients : list Conn;
  messageHistory : list string;
  sockets : Conn -> Socket;
  wire : list Output
}.

Definition withClients (cs : list Conn) (s : Server) : Server :=
  mkServer cs (messageHistory s) (sockets s) (wire s).

Definition withHistory (h : list string) (s : Server) : Server :=
  mkServer (clients s) h (sockets s) (wire s).

Definition withSockets (k : Conn -> Socket) (s : Server) : Server :=
  mkServer (clients s) (messageHistory s) k (wire s).

Definition withWire (w : list Output) (s : Server) : Server :=
  mkServer (clients s) (messageHistory s) (sockets s) w.

(** ** Statements: state passing with exceptions

    A statement runs on the shared state and either completes with a value
    or throws; what it did to the state before throwing stays done. *)

Inductive Completion (A : Type) :=
| Normal (a : A)
| Throw (error : string).

Arguments Normal {A} a.
Arguments Throw {A} error.

Definition Stmt (A : Type) : Type := Server -> Completion A * Server.

Definition ret {A : Type} (a : A) : Stmt A := fun s => (Normal a, s).

Definition bind {A B : Type} (c : Stmt A) (k : A -> Stmt B) : Stmt B :=
  fun s =>
    match c s with
    | (Normal a, s') => k a s'
    | (Throw e, s') => (Throw e, s')
    end.

Definition tryCatch {A : Type} (body : Stmt A) (handler : string -> Stmt A)
  : Stmt A :=
  fun s =>
    match body s with
    | (Normal a, s') => (Normal a, s')
    | (Throw e, s') => handler e s'
    end.

Declare Scope stmt_scope.
Delimit Scope stmt_scope with stmt.
Notation "x <- c ;; k" := (bind c (fun x => k))
  (at level 61, c at next level, right associativity) : stmt_scope.
Notation "c ;; k" := (bind c (fun _ => k))
  (at level 61, right associativity) : stmt_scope.
Local Open Scope stmt_scope.

Fixpoint forEach {X : Type} (xs : list X) (callback : X -> Stmt unit)
  : Stmt unit :=
  match xs with
  | [] => ret tt
  | x :: rest => callback x ;; forEach rest callback
  end.

(** *** The [Set] of clients *)

Definition setHas (cs : list Conn) (c : Conn) : bool :=
  existsb (Nat.eqb c) cs.

Definition setAdd (c : Conn) (cs : list Conn) : list Conn :=
  if setHas cs c then cs else cs ++ [c].

Definition setDelete (c : Conn) (cs : list Conn) : list Conn :=
  filter (fun d => negb (Nat.eqb d c)) cs.

Definition clientsAdd (ws : Conn) : Stmt unit :=
  fun s => (Normal tt, withClients (setAdd ws (clients s)) s).

Definition clientsDelete (ws : Conn) : Stmt unit :=
  fun s => (Normal tt, withClients (setDelete ws (clients s)) s).

Definition clientsSize : Stmt nat :=
  fun s => (Normal (List.length (clients s)), s).

(** [clients.forEach(callback)].  The callbacks of this program delete no
    element but the one they are visiting, so the elements visited are the
    ones the set held when the loop started. *)
Definition clientsForEach (callback : Conn -> Stmt unit) : Stmt unit :=
  fun s => forEach (clients s) callback s.

(** *** Sockets *)

Definition getReadyState (client : Conn) : Stmt ReadyState :=
  fun s => (Normal (readyState (sockets s client)), s).

Definition send (client : Conn) (data : string) : Stmt unit :=
  fun s =>
    match sendThrows (sockets s client) data with
    | None => (Normal tt, withWire (wire s ++ [Frame client data]) s)
    | Some e => (Throw e, withWire (wire s ++ [SendError client data]) s)
    end.

Definition ping (client : Conn) : Stmt unit :=
  fun s =>
    match pingThrows (sockets s client) with
    | None => (Normal tt, s)
    | Some e => (Throw e, s)
    end.

(** *** The history array *)

Definition getHistory : Stmt (list string) :=
  fun s => (Normal (messageHistory s), s).

Definition setHistory (h : list string) : Stmt unit :=
  fun s => (Normal tt, withHistory h s).

(** The block that both producers run on a real notification
    (lines 69-74 and 226-231): push unless already there, then keep the
    last 50. *)
Definition recordIfNew (msgStr : string) : Stmt unit :=
  h <- getHistory ;;
  if negb (Js.arrayIncludes h msgStr) then
    setHistory (h ++ [msgStr]) ;;
    h' <- getHistory ;;
    if 50 <? List.length h' then setHistory (Js.sliceLast 50 h')
    else ret tt
  else ret tt.

(** ** Broadcasts (lines 99-125) *)

Definition broadcastToAll (message : string) : Stmt unit :=
  clientsForEach (fun client =>
    r <- getReadyState client ;;
    if isOPEN r then
      tryCatch (send client message)
               (fun _ => clientsDelete client)
    else ret tt).

Definition broadcastToOthers (sender : Conn) (message : string) : Stmt unit :=
  clientsForEach (fun client =>
    r <- getReadyState client ;;
    if negb (Nat.eqb client sender) && isOPEN r then
      tryCatch (send client message)
               (fun _ => clientsDelete client)
    else ret tt).

(** ** WebSocket handlers (lines 40-96) *)

Definition connection (ws : Conn) : Stmt unit :=
  clientsAdd ws ;;
  h <- getHistory ;;
  let realNotifications := Js.sliceLast 5 (filter isRealNotification h) in
  forEach realNotifications (fun msg => send ws msg).

Definition incoming (ws : Conn) (message : string) : Stmt unit :=
  tryCatch
    (let msgStr := message in
     if Js.includes msgStr "request_initial_data" then ret tt
     else if isRealNotification msgStr then
       recordIfNew msgStr ;;
       broadcastToOthers ws msgStr
     else ret tt)
    (fun _ => ret tt).

Definition close (ws : Conn) : Stmt unit := clientsDelete ws.

Definition error (ws : Conn) : Stmt unit := clientsDelete ws.

(** ** The submission route (lines 210-256) *)

Module Req.

(** The parsed JSON body: a field is absent or holds a string.  Bodies of
    any other shape are the matter of [sendNotificationJson] below. *)
Record body := mkBody {
  type : option string;
  title : option string;
  message : option string;
  extraData : option string
}.

End Req.

Module Res.

(** The status code and the JSON object of the response; a key that the
    handler does not write is [None]. *)
Record json := mkJson {
  status : nat;
  success : bool;
  message : option string;
  error : option string;
  clients : option nat;
  notification : option string
}.

End Res.

(** [!v] for a field of the body. *)
Definition falsy (v : option string) : bool :=
  match v with
  | None => true
  | Some EmptyString => true
  | Some (String _ _) => false
  end.

(** [${v}] in a template literal. *)
Definition interpolate (v : option string) : string :=
  match v with
  | None => "undefined"
  | Some x => x
  end.

(** A destructuring default, [v = d]. *)
Definition orDefault (d : string) (v : option string) : option string :=
  match v with
  | None => Some d
  | Some x => Some x
  end.

Definition sendNotification (body : Req.body) : Stmt Res.json :=
  tryCatch
    (let type := Req.type body in
     let title := Req.title body in
     let message := Req.message body in
     let extraData := orDefault "" (Req.extraData body) in
     if falsy type || falsy title || falsy message then
       ret (Res.mkJson 400 false None
              (Some "Missing required fields: type, title, message")
              None None)
     else
       let notification :=
         (interpolate type ++ "|" ++ interpolate title ++ "|"
            ++ interpolate message ++ "|" ++ interpolate extraData)%string in
       if isRealNotification notification then
         recordIfNew notification ;;
         broadcastToAll notification ;;
         size <- clientsSize ;;
         ret (Res.mkJson 200 true
                (Some "Real notification sent successfully")
                None (Some size) (Some notification))
       else
         ret (Res.mkJson 200 false
                (Some "System message filtered out - not a real notification")
                None None (Some notification)))
    (fun e => ret (Res.mkJson 500 false None (Some e) None None)).

(** ** The two timers (lines 273-303) *)

Definition cleanUp : Stmt unit :=
  fun s =>
    let disconnectedClients :=
      filter (fun client => negb (isOPEN (readyState (sockets s client))))
             (clients s) in
    forEach disconnectedClients clientsDelete s.

Definition keepAlive : Stmt unit :=
  clientsForEach (fun client =>
    r <- getReadyState client ;;
    if isOPEN r then
      tryCatch (ping client) (fun _ => clientsDelete client)
    else ret tt).

(** ** The server as a transition system

    One event is one callback of the event loop; between two callbacks the
    transport may change the state of any socket. *)

Inductive Event :=
| OnConnection (ws : Conn)
| OnMessage (ws : Conn) (data : string)
| OnClose (ws : Conn)
| OnError (ws : Conn)
| OnPost (body : Req.body)
| OnCleanUpTimer
| OnKeepAliveTimer
| OnTransport (k : Conn -> Socket).

Definition handle (e : Event) : Stmt unit :=
  match e with
  | OnConnection ws => connection ws
  | OnMessage ws data => incoming ws data
  | OnClose ws => close ws
  | OnError ws => error ws
  | OnPost body => sendNotification body ;; ret tt
  | OnCleanUpTimer => cleanUp
  | OnKeepAliveTimer => keepAlive
  | OnTransport k => fun s => (Normal tt, withSockets k s)
  end.

Definition step (s : Server) (e : Event) : Server := snd (handle e s).

Definition run (s : Server) (es : list Event) : Server := fold_left step es s.

(** The state when the process starts. *)
Definition boot (k : Conn -> Socket) : Server := mkServer [] [] k [].

Definition reachable (s : Server) : Prop :=
  exists k es, s = run (boot k) es.

(** What [handle] added to the wire. *)
Definition sentSince (before after : Server) : list Output :=
  skipn (List.length (wire before)) (wire after).

(** ** Vocabulary for the statements *)

(** The history after the block [recordIfNew] has run on history [h]. *)
Definition recorded (h : list string) (text : string) : list string :=
  if Js.arrayIncludes h text then h else Js.sliceLast 50 (h ++ [text]).

(** The last five entries that pass the classifier: what a new connection
    is sent. *)
Definition backfill (h : list string) : list string :=
  Js.sliceLast 5 (filter isRealNotification h).

Definition target (o : Output) : Conn :=
  match o with Frame c _ => c | SendError c _ => c end.

Definition payload (o : Output) : string :=
  match o with Frame _ d => d | SendError _ d => d end.

Definition isOpen (k : Conn -> Socket) (c : Conn) : bool :=
  isOPEN (readyState (k c)).

Definition sendFails (k : Conn -> Socket) (data : string) (c : Conn) : bool :=
  match sendThrows (k c) data with Some _ => true | None => false end.

(** What one call [c.send(data)] leaves on the wire. *)
Definition outputOf (k : Conn -> Socket) (data : string) (c : Conn) : Output :=
  if sendFails k data c then SendError c data else Frame c data.

(** The body of both broadcast loops, for the connections chosen by [P]. *)
Definition relayTo (P : Conn -> bool) (message : string) (client : Conn)
  : Stmt unit :=
  r <- getReadyState client ;;
  if P client && isOPEN r then
    tryCatch (send client message) (fun _ => clientsDelete client)
  else ret tt.

(** The connections a broadcast loop calls [send] on, and the ones it
    deletes from the set. *)
Definition addressed (P : Conn -> bool) (k : Conn -> Socket) (c : Conn)
  : bool :=
  P c && isOpen k c.

Definition dropped (P : Conn -> bool) (message : string) (k : Conn -> Socket)
  (c : Conn) : bool :=
  addressed P k c && sendFails k message c.

(** What the loop of [connection] does with the list [l]: the completion
    of the loop and the outputs it leaves, stopping at the first [send]
    that throws. *)
Fixpoint replay (k : Conn -> Socket) (ws : Conn) (l : list string)
  : Completion unit * list Output :=
  match l with
  | [] => (Normal tt, [])
  | msg :: rest =>
      match sendThrows (k ws) msg with
      | None =>
          let (c, outs) := replay k ws rest in (c, Frame ws msg :: outs)
      | Some e => (Throw e, [SendError ws msg])
      end
  end.

(** A boolean test for pairwise distinct texts. *)
Fixpoint distinct (l : list string) : bool :=
  match l with
  | [] => true
  | x :: rest => negb (Js.arrayIncludes rest x) && distinct rest
  end.

(** The text built from a body that has its three required fields. *)
Definition textOf (body : Req.body) : string :=
  (interpolate (Req.type body) ++ "|" ++ interpolate (Req.title body) ++ "|"
     ++ interpolate (Req.message body) ++ "|"
     ++ interpolate (orDefault "" (Req.extraData body)))%string.

Definition incomplete (body : Req.body) : bool :=
  falsy (Req.type body) || falsy (Req.title body) || falsy (Req.message body).

(** The text that an event offers to the relay, if any. *)
Definition offered (e : Event) : option string :=
  match e with
  | OnMessage _ data => Some data
  | OnPost body => if incomplete body then None else Some (textOf body)
  | _ => None
  end.

(** Every text on the wire and in the history is a real notification. *)
Definition onlyReal (s : Server) : Prop :=
  Forall (fun text => isRealNotification text = true) (messageHistory s) /\
  Forall (fun o => isRealNotification (payload o) = true) (wire s).

(** Everything but the set of clients. *)
Definition sameButClients (s s' : Server) : Prop :=
  messageHistory s' = messageHistory s /\ wire s' = wire s /\
  sockets s' = sockets s.

(** ** Sample data *)

(** A transport on which every socket is open and no call throws. *)
Definition healthy : Conn -> Socket :=
  fun _ => mkSocket OPEN (fun _ => None) None.

(** Socket 2 throws on every [send]; the others are healthy. *)
Definition oneBroken : Conn -> Socket :=
  fun c =>
    if Nat.eqb c 2 then mkSocket OPEN (fun _ => Some "EPIPE") None
    else healthy c.

(** Fifty-one distinct texts, [wallpaper|0] and so on through the
    characters that follow [0]. *)
Definition samples : list string :=
  map (fun n => ("wallpaper|" ++ String (ascii_of_nat (48 + n)) "")%string)
      (seq 0 51).

Definition art1 : Req.body :=
  Req.mkBody (Some "new_wallpaper") (Some "Art1")
             (Some "New wallpaper available") None.

Definition handshake : Req.body :=
  Req.mkBody (Some "new_wallpaper") (Some "Test")
             (Some "Connection successful!") None.

(** ** The status route (lines 197-208) *)

Module Status.

(** The JSON object of [GET /status].  The uptime is a number of seconds
    with a fraction; it is passed through, whatever its type [T]. *)
Record json (T : Type) := mkJson {
  status : string;
  clients : nat;
  uptime : T;
  totalMessages : nat;
  realNotifications : nat;
  timestamp : string
}.

Arguments mkJson {T}.
Arguments status {T}.
Arguments clients {T}.
Arguments uptime {T}.
Arguments totalMessages {T}.
Arguments realNotifications {T}.
Arguments timestamp {T}.

End Status.

(** The handler, given what [process.uptime()] and
    [new Date().toISOString()] return. *)
Definition getStatus {T : Type} (uptime : T) (timestamp : string)
  : Stmt (Status.json T) :=
  h <- getHistory ;;
  let realNotifications := filter isRealNotification h in
  size <- clientsSize ;;
  total <- getHistory ;;
  ret (Status.mkJson "online" size uptime (List.length total)
         (List.length realNotifications) timestamp).

(** ** More vocabulary *)

Definition pingFails (k : Conn -> Socket) (c : Conn) : bool :=
  match pingThrows (k c) with Some _ => true | None => false end.

(** Socket 2 has left the OPEN state, socket 3 throws on [ping]. *)
Definition worn : Conn -> Socket :=
  fun c =>
    if Nat.eqb c 2 then mkSocket CLOSED (fun _ => None) None
    else if Nat.eqb c 3 then mkSocket OPEN (fun _ => None) (Some "EPIPE")
    else healthy c.

(** ** The submission route on any body

    [express.json()] leaves in [req.body] whatever the request carried:
    nothing at all, or a JSON value whose members can be of any JSON type.
    [sendNotificationJson] is the handler of lines 210-256 on such a body;
    [sendNotification] above is the same handler on the bodies whose four
    fields are absent or strings. *)

(** A number is known to the handler by two observations only: whether
    it is zero, for [!v], and its rendering, for a template literal. *)
#[warnings="-register-all"]
Inductive Json :=
| JNull
| JBool (b : bool)
| JNumber (isZero : bool) (shown : string)
| JString (s : string)
| JArray (items : list Json)
| JObject (members : list (string * Json)).



(** The messages of the two [TypeError]s that the handler can meet; they
    are the engine's, not the program's.  The first names the value that
    could not be destructured. *)
Record TypeErrors := mkTypeErrors {
  cannotDestructure : option Json -> string;
  cannotConvert : string
}.

(** The own property [key] of an object built by [JSON.parse]: of two
    members with the same key the later one stays. *)
Fixpoint getOwn (key : string) (members : list (string * Json))
  : option Json :=
  match members with
  | [] => None
  | (k, v) :: rest =>
      match getOwn key rest with
      | Some w => Some w
      | None => if String.eqb k key then Some v else None
      end
  end.

(** [v.key] for one of the four keys the handler reads: an own member of
    an object, and [undefined] on arrays and primitives, whose prototypes
    have none of these names. *)
Definition getField (v : Json) (key : string) : option Json :=
  match v with
  | JObject members => getOwn key members
  | _ => None
  end.

Module Raw.

(** What the destructuring of line 212 binds, before the default. *)
Record fields := mkFields {
  type : option Json;
  title : option Json;
  message : option Json;
  extraData : option Json
}.

End Raw.

(** [const { type, title, message, extraData } = req.body]: [None] when
    the body is [undefined] or [null], where the statement throws. *)
Definition destructure (reqBody : option Json) : option Raw.fields :=
  match reqBody with
  | None => None
  | Some JNull => None
  | Some v =>
      Some (Raw.mkFields (getField v "type") (getField v "title")
                         (getField v "message") (getField v "extraData"))
  end.

(** The truth value of a field, as [!v] reads it. *)
Definition truthy (v : option Json) : bool :=
  match v with
  | None => false
  | Some JNull => false
  | Some (JBool b) => b
  | Some (JNumber isZero _) => negb isZero
  | Some (JString EmptyString) => false
  | Some (JString (String _ _)) => true
  | Some (JArray _) => true
  | Some (JObject _) => true
  end.

(** The string of a JSON value, [None] where the conversion throws: an
    object with a member named [toString] has no callable [toString], and
    the inherited [valueOf] gives back the object.  An array is its
    elements joined by commas, [null] counting for nothing. *)
Fixpoint jsonToString (v : Json) : option string :=
  match v with
  | JNull => Some "null"
  | JBool true => Some "true"
  | JBool false => Some "false"
  | JNumber _ shown => Some shown
  | JString s => Some s
  | JArray items =>
      (fix join (l : list Json) : option string :=
         match l with
         | [] => Some ""
         | x :: rest =>
             match (match x with JNull => Some "" | _ => jsonToString x end) with
             | None => None
             | Some a =>
                 match rest with
                 | [] => Some a
                 | _ :: _ =>
                     match join rest with
                     | None => None
                     | Some b => Some (a ++ "," ++ b)%string
                     end
                 end
             end
         end) items
  | JObject members =>
      match getOwn "toString" members with
      | Some _ => None
      | None => Some "[object Object]"
      end
  end.

(** [${v}] for a field that may be [undefined]. *)
Definition interpolateJson (v : option Json) : option string :=
  match v with
  | None => Some "undefined"
  | Some j => jsonToString j
  end.

(** The template literal of line 221; the first conversion that throws
    ends it. *)
Definition template (type title message extraData : option Json)
  : option string :=
  match interpolateJson type with
  | None => None
  | Some a =>
      match interpolateJson title with
      | None => None
      | Some b =>
          match interpolateJson message with
          | None => None
          | Some c =>
              match interpolateJson extraData with
              | None => None
              | Some d => Some (a ++ "|" ++ b ++ "|" ++ c ++ "|" ++ d)%string
              end
          end
      end
  end.

Definition throwError {A : Type} (e : string) : Stmt A :=
  fun s => (Throw e, s).

Definition orThrow {A : Type} (e : string) (v : option A) : Stmt A :=
  match v with
  | Some a => ret a
  | None => throwError e
  end.

Definition sendNotificationJson (errors : TypeErrors) (reqBody : option Json)
  : Stmt Res.json :=
  tryCatch
    (bound <- orThrow (cannotDestructure errors reqBody) (destructure reqBody) ;;
     let type := Raw.type bound in
     let title := Raw.title bound in
     let message := Raw.message bound in
     let extraData :=
       match Raw.extraData bound with
       | None => Some (JString "")
       | Some v => Some v
       end in
     if negb (truthy type) || negb (truthy title) || negb (truthy message) then
       ret (Res.mkJson 400 false None
              (Some "Missing required fields: type, title, message")
              None None)
     else
       notification <- orThrow (cannotConvert errors)
                         (template type title message extraData) ;;
       if isRealNotification notification then
         recordIfNew notification ;;
         broadcastToAll notification ;;
         size <- clientsSize ;;
         ret (Res.mkJson 200 true
                (Some "Real notification sent successfully")
                None (Some size) (Some notification))
       else
         ret (Res.mkJson 200 false
                (Some "System message filtered out - not a real notification")
                None None (Some notification)))
    (fun e => ret (Res.mkJson 500 false None (Some e) None None)).

(** *** Bodies with string fields *)

(** A field that is absent or a string, read as such. *)
Definition asString (v : option Json) : option (option string) :=
  match v with
  | None => Some None
  | Some (JString x) => Some (Some x)
  | Some _ => None
  end.

(** The body as a [Req.body], when it can be destructured and each of the
    four fields is absent or a string. *)
Definition stringFields (reqBody : option Json) : option Req.body :=
  match destructure reqBody with
  | None => None
  | Some bound =>
      match asString (Raw.type bound), asString (Raw.title bound),
            asString (Raw.message bound), asString (Raw.extraData bound) with
      | Some a, Some b, Some c, Some d => Some (Req.mkBody a b c d)
      | _, _, _, _ => None
      end
  end.

(** The extra field after the default of line 212. *)
Definition extraOrEmpty (bound : Raw.fields) : option Json :=
  match Raw.extraData bound with
  | None => Some (JString "")
  | Some v => Some v
  end.

Definition allTruthy (bound : Raw.fields) : bool :=
  truthy (Raw.type bound) && truthy (Raw.title bound)
  && truthy (Raw.message bound).

(** The text of the notification, when the handler gets to build it. *)
Definition builtText (reqBody : option Json) : option string :=
  match destructure reqBody with
  | None => None
  | Some bound =>
      if allTruthy bound then
        template (Raw.type bound) (Raw.title bound) (Raw.message bound)
                 (extraOrEmpty bound)
      else None
  end.

(** *** Sample bodies *)

Definition v8 : TypeErrors :=
  mkTypeErrors
    (fun v =>
       match v with
       | Some JNull =>
           "Cannot destructure property 'type' of 'req.body' as it is null."
       | _ =>
           "Cannot destructure property 'type' of 'req.body' as it is undefined."
       end)
    "Cannot convert object to primitive value".

(** [{"type": {"toString": 1}, "title": "Art1",
      "message": "New wallpaper available"}] *)
Definition unconvertible : option Json :=
  Some (JObject [ ("type", JObject [("toString", JNumber false "1")]);
                  ("title", JString "Art1");
                  ("message", JString "New wallpaper available") ]).

(** [{"type": "new_wallpaper", "title": "Test",
      "message": "Connection successful!", "note": 7}] *)
Definition handshakeJson : option Json :=
  Some (JObject [ ("type", JString "new_wallpaper");
                  ("title", JString "Test");
                  ("message", JString "Connection successful!");
                  ("note", JNumber false "7") ]).

(** [{"type": "new_p", "title": "ING", "message": 5, "extraData": null}] *)
Definition mixed : option Json :=
  Some (JObject [ ("type", JString "new_p");
                  ("title", JString "ING");
                  ("message", JNumber false "5");
                  ("extraData", JNull) ]).

(** * Properties *)

(** ** Strings *)

Section StringFacts.

Local Open Scope string_scope.

Lemma startsWith_spec (s p : string) :
  Js.startsWith s p = true <-> exists post, s = p ++ post.
Proof.
  revert s; induction p as [|a p IH]; intros s; simpl.
  - split; [intros _; now exists s | reflexivity].
  - destruct s as [|b s]; simpl.
    + split; [discriminate | intros [post H]; discriminate].
    + rewrite andb_true_iff, Ascii.eqb_eq, IH. split.
      * intros [-> [post ->]]. now exists post.
      * intros [post H]. injection H as -> ->. split; [reflexivity | now exists post].
Qed.

Lemma includes_spec (s p : string) :
  Js.includes s p = true <-> exists pre post, s = pre ++ p ++ post.
Proof.
  induction s as [|c s IH].
  - cbn [Js.includes]. rewrite startsWith_spec. split.
    + intros [post H]. now exists "", post.
    + intros [pre [post H]]. destruct pre; [now exists post | discriminate].
  - cbn [Js.includes]. rewrite orb_true_iff, startsWith_spec, IH. split.
    + intros [[post H] | [pre [post H]]].
      * now exists "", post.
      * exists (String c pre), post. simpl. now rewrite H.
    + intros [pre [post H]]. destruct pre as [|d pre].
      * left. now exists post.
      * right. simpl in H. injection H as -> ->. now exists pre, post.
Qed.

Lemma toLowerCase_app (a b : string) :
  Js.toLowerCase (a ++ b) = Js.toLowerCase a ++ Js.toLowerCase b.
Proof. induction a as [|c a IH]; simpl; [reflexivity | now rewrite IH]. Qed.

(** A split of the lowered text comes from a split of the text. *)
Lemma toLowerCase_split (s a b : string) :
  Js.toLowerCase s = a ++ b ->
  exists a' b', s = a' ++ b' /\ Js.toLowerCase a' = a /\ Js.toLowerCase b' = b.
Proof.
  revert s; induction a as [|c a IH]; intros s H.
  - now exists "", s.
  - destruct s as [|d s]; [discriminate|].
    simpl in H. injection H as Hc Hs.
    destruct (IH _ Hs) as [a' [b' [-> [Ha Hb]]]].
    exists (String d a'), b'. simpl. now rewrite Hc, Ha, Hb.
Qed.

Lemma nat_of_ascii_lt (c : ascii) : nat_of_ascii c < 256.
Proof. apply nat_ascii_bounded. Qed.

Lemma toLowerCaseChar_nat (c : ascii) :
  nat_of_ascii (Js.toLowerCaseChar c) =
  if Js.isUpperCase c then nat_of_ascii c + 32 else nat_of_ascii c.
Proof.
  unfold Js.toLowerCaseChar. destruct (Js.isUpperCase c) eqn:E; [|reflexivity].
  unfold Js.isUpperCase in E. apply andb_true_iff in E as [_ E].
  apply Nat.leb_le in E. apply nat_ascii_embedding. lia.
Qed.

Lemma isUpperCase_iff (c : ascii) :
  Js.isUpperCase c = true <-> 65 <= nat_of_ascii c <= 90.
Proof.
  unfold Js.isUpperCase. rewrite andb_true_iff, !Nat.leb_le. tauto.
Qed.

Lemma ascii_eq_nat (c d : ascii) : nat_of_ascii c = nat_of_ascii d -> c = d.
Proof.
  intros H. rewrite <- (ascii_nat_embedding c), <- (ascii_nat_embedding d).
  now rewrite H.
Qed.

(** The letters of the specification are the characters that [toLowerCase]
    sends to the same place. *)
Lemma sameLetter_lower (c d : ascii) :
  Spec.sameLetter c d <-> Js.toLowerCaseChar c = Js.toLowerCaseChar d.
Proof.
  unfold Spec.sameLetter, Spec.capitalOf. split.
  - intros H. apply ascii_eq_nat. rewrite !toLowerCaseChar_nat.
    destruct (Js.isUpperCase c) eqn:Ec, (Js.isUpperCase d) eqn:Ed;
      try apply isUpperCase_iff in Ec; try apply isUpperCase_iff in Ed;
      try (apply not_true_iff_false in Ec; rewrite isUpperCase_iff in Ec);
      try (apply not_true_iff_false in Ed; rewrite isUpperCase_iff in Ed);
      destruct H as [-> | [[H1 H2] | [H1 H2]]]; lia.
  - intros H. apply (f_equal nat_of_ascii) in H.
    rewrite !toLowerCaseChar_nat in H.
    destruct (Js.isUpperCase c) eqn:Ec, (Js.isUpperCase d) eqn:Ed;
      try apply isUpperCase_iff in Ec; try apply isUpperCase_iff in Ed.
    + left. apply ascii_eq_nat. lia.
    + right; left. split; [exact Ec | lia].
    + right; right. split; [exact Ed | lia].
    + left. now apply ascii_eq_nat.
Qed.

Lemma spells_lower (s t : string) :
  Spec.spells s t <-> Js.toLowerCase s = Js.toLowerCase t.
Proof.
  split.
  - induction 1 as [|c d s t Hcd _ IH]; simpl; [reflexivity|].
    apply sameLetter_lower in Hcd. now rewrite Hcd, IH.
  - revert t; induction s as [|c s IH]; intros [|d t] H; try discriminate.
    + constructor.
    + simpl in H. injection H as Hc Hs.
      constructor; [now apply sameLetter_lower | now apply IH].
Qed.

End StringFacts.

(** ** The classifier *)

Lemma keywords_lowered : map Js.toLowerCase systemKeywords = Spec.denylist.
Proof. reflexivity. Qed.

Lemma denylist_is_lower (marker : string) :
  In marker Spec.denylist -> Js.toLowerCase marker = marker.
Proof.
  unfold Spec.denylist; simpl.
  intros H; repeat (destruct H as [<- | H]; [reflexivity|]); contradiction.
Qed.

(** The code's test, read as a statement about occurrences. *)
Lemma includes_lowered_iff (text marker : string) :
  In marker Spec.denylist ->
  Js.includes (Js.toLowerCase text) marker = true <->
  Spec.occursIgnoringCase marker text.
Proof.
  intros Hm. rewrite includes_spec. unfold Spec.occursIgnoringCase. split.
  - intros [pre [post H]].
    apply toLowerCase_split in H as [pre' [rest [-> [_ H]]]].
    apply toLowerCase_split in H as [mid [post' [-> [Hmid _]]]].
    exists pre', mid, post'. split; [reflexivity|].
    apply spells_lower. now rewrite Hmid, (denylist_is_lower _ Hm).
  - intros [pre [mid [post [-> Hs]]]].
    apply spells_lower in Hs. rewrite (denylist_is_lower _ Hm) in Hs.
    exists (Js.toLowerCase pre), (Js.toLowerCase post).
    now rewrite !toLowerCase_app, Hs.
Qed.

Lemma isRealNotification_false_iff (text : string) :
  isRealNotification text = false <-> Spec.containsMarker text.
Proof.
  unfold isRealNotification, Spec.containsMarker.
  rewrite negb_false_iff, existsb_exists. split.
  - intros [keyword [Hin Hinc]].
    assert (Hm : In (Js.toLowerCase keyword) Spec.denylist).
    { rewrite <- keywords_lowered. now apply in_map. }
    exists (Js.toLowerCase keyword). split; [exact Hm|].
    now apply includes_lowered_iff.
  - intros [marker [Hm Hocc]].
    pose proof Hm as Hm'. rewrite <- keywords_lowered in Hm'.
    apply in_map_iff in Hm' as [keyword [<- Hin]].
    exists keyword. split; [exact Hin|].
    now apply includes_lowered_iff.
Qed.

(** C1.  [isRealNotification text] is [false] exactly when one of the ten
    markers of the denylist occurs in [text], at any position and in any
    mix of capital and small letters; it is [true] exactly when none does,
    and the empty text is real. *)
Theorem isRealNotification_denylist (text : string) :
  (isRealNotification text = false <-> Spec.containsMarker text) /\
  (isRealNotification text = true <-> ~ Spec.containsMarker text) /\
  isRealNotification "" = true.
Proof.
  split; [apply isRealNotification_false_iff|]. split; [|reflexivity].
  rewrite <- isRealNotification_false_iff.
  destruct (isRealNotification text); split; congruence.
Qed.

Lemma isRealNotification_denylist_witness :
  Spec.containsMarker "Wallpaper|HeartBeat|42".
Proof.
  apply (proj1 (proj1 (isRealNotification_denylist "Wallpaper|HeartBeat|42"))).
  reflexivity.
Defined.

Example classify_plain :
  isRealNotification "new_wallpaper|Art1|New wallpaper available|" = true.
Proof. reflexivity. Qed.

Example classify_handshake :
  isRealNotification "new_wallpaper|Test|Connection successful!|" = false.
Proof. reflexivity. Qed.

Example classify_shouted :
  isRealNotification "xxPiNGyy" = false.
Proof. reflexivity. Qed.

(** ** Arrays *)

Section ArrayFacts.

Context {A : Type}.

Lemma sliceLast_length (n : nat) (xs : list A) :
  List.length (Js.sliceLast n xs) = Nat.min n (List.length xs).
Proof. unfold Js.sliceLast. rewrite length_skipn. lia. Qed.

Lemma sliceLast_short (n : nat) (xs : list A) :
  List.length xs <= n -> Js.sliceLast n xs = xs.
Proof.
  intros H. unfold Js.sliceLast.
  replace (List.length xs - n) with 0 by lia. reflexivity.
Qed.

Lemma skipn_In (n : nat) (xs : list A) (x : A) :
  In x (skipn n xs) -> In x xs.
Proof.
  intros H. rewrite <- (firstn_skipn n xs). apply in_or_app. now right.
Qed.

Lemma sliceLast_In (n : nat) (xs : list A) (x : A) :
  In x (Js.sliceLast n xs) -> In x xs.
Proof. apply skipn_In. Qed.

Lemma skipn_NoDup (n : nat) (xs : list A) : NoDup xs -> NoDup (skipn n xs).
Proof.
  intros H. rewrite <- (firstn_skipn n xs) in H.
  now apply NoDup_app_remove_l in H.
Qed.

Lemma sliceLast_NoDup (n : nat) (xs : list A) :
  NoDup xs -> NoDup (Js.sliceLast n xs).
Proof. apply skipn_NoDup. Qed.

Lemma sliceLast_Forall (P : A -> Prop) (n : nat) (xs : list A) :
  Forall P xs -> Forall P (Js.sliceLast n xs).
Proof.
  rewrite !Forall_forall. intros H x Hx. apply H. eapply sliceLast_In, Hx.
Qed.

(** The last element survives a slice that keeps anything at all. *)
Lemma sliceLast_snoc_In (n : nat) (xs : list A) (x : A) :
  In x (Js.sliceLast (S n) (xs ++ [x])).
Proof.
  unfold Js.sliceLast. rewrite length_app. simpl.
  replace (List.length xs + 1 - S n) with (List.length xs - n) by lia.
  rewrite skipn_app. apply in_or_app. right.
  replace (List.length xs - n - List.length xs) with 0 by lia. now left.
Qed.

End ArrayFacts.

Lemma arrayIncludes_In (xs : list string) (x : string) :
  Js.arrayIncludes xs x = true <-> In x xs.
Proof.
  unfold Js.arrayIncludes. rewrite existsb_exists. split.
  - intros [y [Hy E]]. apply String.eqb_eq in E. now subst.
  - intros H. exists x. split; [exact H | apply String.eqb_refl].
Qed.

Lemma arrayIncludes_not_In (xs : list string) (x : string) :
  Js.arrayIncludes xs x = false <-> ~ In x xs.
Proof.
  rewrite <- arrayIncludes_In. destruct (Js.arrayIncludes xs x); split; congruence.
Qed.

(** ** The history block *)

Lemma withHistory_same (s : Server) : withHistory (messageHistory s) s = s.
Proof. now destruct s. Qed.

Lemma recordIfNew_run (text : string) (s : Server) :
  recordIfNew text s =
  (Normal tt, withHistory (recorded (messageHistory s) text) s).
Proof.
  unfold recordIfNew, recorded, bind, getHistory, setHistory, ret.
  destruct (Js.arrayIncludes (messageHistory s) text); simpl.
  - now rewrite withHistory_same.
  - destruct (Nat.ltb_spec 50 (List.length (messageHistory s ++ [text])));
      simpl; [reflexivity|].
    now rewrite sliceLast_short.
Qed.

Lemma recorded_length (h : list string) (text : string) :
  List.length h <= 50 -> List.length (recorded h text) <= 50.
Proof.
  intros H. unfold recorded. destruct (Js.arrayIncludes h text); [exact H|].
  rewrite sliceLast_length. lia.
Qed.

Lemma recorded_NoDup (h : list string) (text : string) :
  NoDup h -> NoDup (recorded h text).
Proof.
  intros H. unfold recorded.
  destruct (Js.arrayIncludes h text) eqn:E; [exact H|].
  apply sliceLast_NoDup. apply arrayIncludes_not_In in E.
  apply NoDup_app; [exact H | repeat constructor; intros [] |].
  intros x Hx [<- | []]. contradiction.
Qed.

Lemma recorded_real (h : list string) (text : string) :
  isRealNotification text = true ->
  Forall (fun t => isRealNotification t = true) h ->
  Forall (fun t => isRealNotification t = true) (recorded h text).
Proof.
  intros Ht H. unfold recorded. destruct (Js.arrayIncludes h text); [exact H|].
  apply sliceLast_Forall, Forall_app. split; [exact H | now constructor].
Qed.

Lemma recorded_In (h : list string) (text : string) : In text (recorded h text).
Proof.
  unfold recorded. destruct (Js.arrayIncludes h text) eqn:E.
  - now apply arrayIncludes_In.
  - apply sliceLast_snoc_In.
Qed.

(** ** Broadcast loops *)

Section Broadcast.

Variable P : Conn -> bool.
Variable message : string.
Variable k : Conn -> Socket.

Lemma relayTo_run (c : Conn) (s : Server) :
  sockets s = k ->
  relayTo P message c s =
  (Normal tt,
   mkServer (if dropped P message k c then setDelete c (clients s) else clients s)
            (messageHistory s) k
            (wire s ++ (if addressed P k c then [outputOf k message c] else []))).
Proof.
  intros Hk. unfold relayTo, bind, getReadyState, dropped, addressed, isOpen.
  rewrite Hk. destruct (P c && isOPEN (readyState (k c))) eqn:E; simpl.
  - unfold tryCatch, send, outputOf, sendFails. rewrite Hk.
    destruct (sendThrows (k c) message); simpl; unfold withWire; simpl;
      now rewrite Hk.
  - unfold ret. destruct s; simpl in *. now rewrite app_nil_r, Hk.
Qed.

Lemma filter_filter {A : Type} (f g : A -> bool) (xs : list A) :
  filter f (filter g xs) = filter (fun x => g x && f x) xs.
Proof.
  induction xs as [|x xs IH]; simpl; [reflexivity|].
  destruct (g x); simpl; [destruct (f x)|]; now rewrite IH.
Qed.

Lemma forEach_relayTo (l : list Conn) (s : Server) :
  sockets s = k ->
  forEach l (relayTo P message) s =
  (Normal tt,
   mkServer (filter (fun c => negb (setHas l c && dropped P message k c)) (clients s))
            (messageHistory s) k
            (wire s ++ map (outputOf k message) (filter (addressed P k) l))).
Proof.
  revert s; induction l as [|c l IH]; intros s Hk.
  - simpl. unfold ret. destruct s; simpl in *. subst.
    rewrite app_nil_r. f_equal. f_equal.
    induction clients0 as [|x xs IHx]; simpl; [reflexivity | now rewrite <- IHx].
  - cbn [forEach]. unfold bind at 1. rewrite (relayTo_run c s Hk).
    rewrite IH by reflexivity. cbn [clients messageHistory wire].
    f_equal. f_equal.
    + destruct (dropped P message k c) eqn:Ec.
      * unfold setDelete. rewrite filter_filter. apply filter_ext.
        intros d. cbn [setHas existsb].
        destruct (Nat.eqb_spec d c) as [->|]; simpl; [now rewrite Ec|reflexivity].
      * apply filter_ext. intros d. cbn [setHas existsb].
        destruct (Nat.eqb_spec d c) as [->|]; simpl; [|reflexivity].
        rewrite Ec. now rewrite andb_false_r.
    + rewrite <- app_assoc. f_equal. cbn [filter].
      destruct (addressed P k c); reflexivity.
Qed.

Lemma setHas_In (cs : list Conn) (c : Conn) : setHas cs c = true <-> In c cs.
Proof.
  unfold setHas. rewrite existsb_exists. split.
  - intros [d [Hd E]]. apply Nat.eqb_eq in E. now subst.
  - intros H. exists c. split; [exact H | apply Nat.eqb_refl].
Qed.

(** The whole loop: nothing is thrown, the connections whose [send] threw
    are gone from the set, and every addressed P k connection had its [send]. *)
Lemma clientsForEach_relayTo (s : Server) :
  sockets s = k ->
  clientsForEach (relayTo P message) s =
  (Normal tt,
   mkServer (filter (fun c => negb (dropped P message k c)) (clients s))
            (messageHistory s) k
            (wire s ++ map (outputOf k message) (filter (addressed P k) (clients s)))).
Proof.
  intros Hk. unfold clientsForEach. rewrite forEach_relayTo by exact Hk.
  f_equal. f_equal. apply filter_ext_in. intros c Hc.
  apply setHas_In in Hc. now rewrite Hc.
Qed.

End Broadcast.

Lemma broadcastToAll_run (message : string) (s : Server) :
  broadcastToAll message s =
  (Normal tt,
   mkServer (filter (fun c => negb (dropped (fun _ => true) message (sockets s) c))
                    (clients s))
            (messageHistory s) (sockets s)
            (wire s ++ map (outputOf (sockets s) message)
                           (filter (isOpen (sockets s)) (clients s)))).
Proof.
  change (broadcastToAll message) with
    (clientsForEach (relayTo (fun _ => true) message)).
  now rewrite (clientsForEach_relayTo _ _ (sockets s)).
Qed.

Lemma broadcastToOthers_run (sender : Conn) (message : string) (s : Server) :
  broadcastToOthers sender message s =
  (Normal tt,
   mkServer (filter (fun c => negb (dropped (fun c => negb (Nat.eqb c sender))
                                            message (sockets s) c))
                    (clients s))
            (messageHistory s) (sockets s)
            (wire s ++ map (outputOf (sockets s) message)
                           (filter (addressed (fun c => negb (Nat.eqb c sender))
                                              (sockets s))
                                   (clients s)))).
Proof.
  change (broadcastToOthers sender message) with
    (clientsForEach (relayTo (fun c => negb (Nat.eqb c sender)) message)).
  now rewrite (clientsForEach_relayTo _ _ (sockets s)).
Qed.

(** ** The handlers, one equation each *)

(** A text that carries the marker of line 61 is not a real notification:
    the special case never changes what the classifier would decide. *)
Lemma request_marker_not_real (data : string) :
  Js.includes data "request_initial_data" = true ->
  isRealNotification data = false.
Proof.
  intros H. apply isRealNotification_false_iff.
  exists "request_initial_data". split.
  - unfold Spec.denylist. simpl. tauto.
  - apply includes_spec in H as [pre [post ->]].
    exists pre, "request_initial_data", post. split; [reflexivity|].
    now apply spells_lower.
Qed.

Lemma incoming_run (ws : Conn) (data : string) (s : Server) :
  incoming ws data s =
  if isRealNotification data
  then broadcastToOthers ws data
         (withHistory (recorded (messageHistory s) data) s)
  else (Normal tt, s).
Proof.
  unfold incoming, tryCatch.
  destruct (Js.includes data "request_initial_data") eqn:E.
  - now rewrite (request_marker_not_real _ E).
  - destruct (isRealNotification data); [|reflexivity].
    unfold bind. rewrite recordIfNew_run.
    now rewrite broadcastToOthers_run.
Qed.

Lemma sendNotification_run (body : Req.body) (s : Server) :
  sendNotification body s =
  if incomplete body then
    (Normal (Res.mkJson 400 false None
               (Some "Missing required fields: type, title, message")
               None None), s)
  else if isRealNotification (textOf body) then
    let s' := snd (broadcastToAll (textOf body)
                     (withHistory (recorded (messageHistory s) (textOf body)) s)) in
    (Normal (Res.mkJson 200 true
               (Some "Real notification sent successfully")
               None (Some (List.length (clients s'))) (Some (textOf body))), s')
  else
    (Normal (Res.mkJson 200 false
               (Some "System message filtered out - not a real notification")
               None None (Some (textOf body))), s).
Proof.
  unfold sendNotification, tryCatch. fold (incomplete body). fold (textOf body).
  destruct (incomplete body); [reflexivity|].
  destruct (isRealNotification (textOf body)); [|reflexivity].
  unfold bind. rewrite recordIfNew_run, broadcastToAll_run. reflexivity.
Qed.

(** The loop of [connection]: frames go out one by one until a [send]
    throws. *)
Lemma forEach_send (ws : Conn) (l : list string) (s : Server) :
  forEach l (fun msg => send ws msg) s =
  (fst (replay (sockets s) ws l),
   withWire (wire s ++ snd (replay (sockets s) ws l)) s).
Proof.
  revert s; induction l as [|m l IH]; intros s.
  - simpl. unfold ret, withWire. rewrite app_nil_r. now destruct s.
  - cbn [forEach replay]. unfold bind, send.
    destruct (sendThrows (sockets s ws) m) eqn:E.
    + reflexivity.
    + rewrite IH. cbn [sockets withWire wire clients messageHistory].
      destruct (replay (sockets s) ws l) as [c outs]. simpl.
      unfold withWire. simpl. now rewrite <- app_assoc.
Qed.

Lemma connection_run (ws : Conn) (s : Server) :
  connection ws s =
  (fst (replay (sockets s) ws (backfill (messageHistory s))),
   mkServer (setAdd ws (clients s)) (messageHistory s) (sockets s)
            (wire s ++ snd (replay (sockets s) ws (backfill (messageHistory s))))).
Proof.
  unfold connection, bind, clientsAdd, getHistory. simpl.
  fold (backfill (messageHistory s)). now rewrite forEach_send.
Qed.

(** ** Loops that leave the history and the wire alone *)

Lemma forEach_keeps {X : Type} (Q : Server -> Prop) (f : X -> Stmt unit)
  (l : list X) :
  (forall x s, Q s -> Q (snd (f x s))) ->
  forall s, Q s -> Q (snd (forEach l f s)).
Proof.
  intros Hf. induction l as [|x l IH]; intros s Hs; [exact Hs|].
  cbn [forEach]. unfold bind. pose proof (Hf x s Hs) as H1.
  destruct (f x s) as [[[]|e] s1]; simpl in H1; [now apply IH | exact H1].
Qed.

Lemma cleanUp_keeps (s : Server) : sameButClients s (snd (cleanUp s)).
Proof.
  unfold cleanUp. apply (forEach_keeps (sameButClients s)).
  - intros x s1 H. exact H.
  - repeat split.
Qed.

Lemma keepAlive_keeps (s : Server) : sameButClients s (snd (keepAlive s)).
Proof.
  unfold keepAlive, clientsForEach. apply (forEach_keeps (sameButClients s)).
  - intros c s1 H. unfold bind, getReadyState.
    destruct (isOPEN (readyState (sockets s1 c))); [|exact H].
    unfold tryCatch, ping. destruct (pingThrows (sockets s1 c)); exact H.
  - repeat split.
Qed.

(** ** One step of the server *)

Lemma step_history (s : Server) (e : Event) :
  messageHistory (step s e) =
  match offered e with
  | Some text =>
      if isRealNotification text then recorded (messageHistory s) text
      else messageHistory s
  | None => messageHistory s
  end.
Proof.
  unfold step. destruct e as [ws|ws data|ws|ws|body| | |k]; cbn [handle offered].
  - now rewrite connection_run.
  - rewrite incoming_run. destruct (isRealNotification data); [|reflexivity].
    now rewrite broadcastToOthers_run.
  - reflexivity.
  - reflexivity.
  - unfold bind. rewrite sendNotification_run.
    destruct (incomplete body); [reflexivity|].
    destruct (isRealNotification (textOf body)); [|reflexivity].
    cbn zeta. now rewrite broadcastToAll_run.
  - apply cleanUp_keeps.
  - apply keepAlive_keeps.
  - reflexivity.
Qed.

Lemma payload_outputOf (k : Conn -> Socket) (data : string) (c : Conn) :
  payload (outputOf k data c) = data.
Proof. unfold outputOf. now destruct (sendFails k data c). Qed.

Lemma target_outputOf (k : Conn -> Socket) (data : string) (c : Conn) :
  target (outputOf k data c) = c.
Proof. unfold outputOf. now destruct (sendFails k data c). Qed.

(** The replay speaks to [ws] alone and says a front part of [l]. *)
Lemma replay_outputs (k : Conn -> Socket) (ws : Conn) (l : list string) :
  Forall (fun o => target o = ws) (snd (replay k ws l)) /\
  exists rest, l = map payload (snd (replay k ws l)) ++ rest.
Proof.
  induction l as [|m l [IHt [rest IHp]]]; simpl.
  - split; [constructor | now exists []].
  - destruct (sendThrows (k ws) m).
    + split; [repeat constructor | now exists l].
    + destruct (replay k ws l) as [c outs]. simpl in *. split.
      * now constructor.
      * exists rest. now rewrite <- IHp.
Qed.

Lemma replay_healthy (k : Conn -> Socket) (ws : Conn) (l : list string) :
  (forall m, In m l -> sendThrows (k ws) m = None) ->
  replay k ws l = (Normal tt, map (Frame ws) l).
Proof.
  induction l as [|m l IH]; intros H; simpl; [reflexivity|].
  rewrite (H m) by now left. rewrite IH; [reflexivity|].
  intros m' Hm'. apply H. now right.
Qed.

Lemma backfill_real (h : list string) :
  Forall (fun text => isRealNotification text = true) (backfill h).
Proof.
  apply sliceLast_Forall, Forall_forall. intros x Hx.
  now apply filter_In in Hx.
Qed.

Lemma step_onlyReal (s : Server) (e : Event) :
  onlyReal s -> onlyReal (step s e).
Proof.
  intros [Hh Hw]. split.
  - rewrite step_history. destruct (offered e) as [text|]; [|exact Hh].
    destruct (isRealNotification text) eqn:E; [|exact Hh].
    now apply recorded_real.
  - unfold step.
    destruct e as [ws|ws data|ws|ws|body| | |k]; cbn [handle]; try exact Hw.
    + rewrite connection_run. cbn [snd wire]. apply Forall_app. split; [exact Hw|].
      destruct (replay_outputs (sockets s) ws (backfill (messageHistory s)))
        as [_ [rest Hp]].
      pose proof (backfill_real (messageHistory s)) as Hb.
      rewrite Hp in Hb. apply Forall_app in Hb as [Hb _].
      rewrite Forall_forall in *. intros o Ho. apply Hb. now apply in_map.
    + rewrite incoming_run. destruct (isRealNotification data) eqn:E; [|exact Hw].
      rewrite broadcastToOthers_run. cbn [snd wire withHistory].
      apply Forall_app. split; [exact Hw|].
      apply Forall_forall. intros o Ho. apply in_map_iff in Ho as [c [<- _]].
      now rewrite payload_outputOf.
    + unfold bind. rewrite sendNotification_run.
      destruct (incomplete body); [exact Hw|].
      destruct (isRealNotification (textOf body)) eqn:E; [|exact Hw].
      cbn zeta. rewrite broadcastToAll_run. cbn [snd wire withHistory].
      apply Forall_app. split; [exact Hw|].
      apply Forall_forall. intros o Ho. apply in_map_iff in Ho as [c [<- _]].
      now rewrite payload_outputOf.
    + destruct (cleanUp_keeps s) as [_ [-> _]]. exact Hw.
    + destruct (keepAlive_keeps s) as [_ [-> _]]. exact Hw.
Qed.

Lemma run_snoc (s : Server) (es : list Event) (e : Event) :
  run s (es ++ [e]) = step (run s es) e.
Proof. unfold run. now rewrite fold_left_app. Qed.

(** Induction over the runs of the server. *)
Lemma reachable_ind (Q : Server -> Prop) :
  (forall k, Q (boot k)) ->
  (forall s e, Q s -> Q (step s e)) ->
  forall s, reachable s -> Q s.
Proof.
  intros Hboot Hstep s [k [es ->]].
  induction es as [|e es IH] using rev_ind; [apply Hboot|].
  rewrite run_snoc. now apply Hstep.
Qed.

Lemma sentSince_app (s s' : Server) (outs : list Output) :
  wire s' = wire s ++ outs -> sentSince s s' = outs.
Proof.
  intros H. unfold sentSince. rewrite H, skipn_app, skipn_all, Nat.sub_diag.
  reflexivity.
Qed.

Lemma sentSince_mk (s : Server) (cs : list Conn) (h : list string)
  (k : Conn -> Socket) (outs : list Output) :
  sentSince s (mkServer cs h k (wire s ++ outs)) = outs.
Proof. now apply sentSince_app. Qed.

(** ** The history holds real notifications only *)

(** C2.  Every step of the server, and so the handling of an inbound
    message and of a submission, keeps the history and the wire free of
    texts that fail the classifier; events that offer no text leave the
    history as it is; every state the server can reach holds real
    notifications only; and what a new connection is sent on joining is
    addressed to it and passes the classifier, whatever the history holds. *)
Theorem only_real_is_stored_or_replayed :
  (forall s e, onlyReal s -> onlyReal (step s e)) /\
  (forall s e, offered e = None -> messageHistory (step s e) = messageHistory s) /\
  (forall s, reachable s -> onlyReal s) /\
  (forall s ws,
      Forall (fun o => isRealNotification (payload o) = true /\ target o = ws)
             (sentSince s (step s (OnConnection ws)))).
Proof.
  split; [exact step_onlyReal|]. split.
  { intros s e H. now rewrite step_history, H. }
  split.
  { apply reachable_ind; [|exact step_onlyReal].
    intros k. split; constructor. }
  intros s ws. unfold step. cbn [handle]. rewrite connection_run. cbn [snd].
  rewrite (sentSince_app s _ (snd (replay (sockets s) ws (backfill (messageHistory s)))))
    by reflexivity.
  destruct (replay_outputs (sockets s) ws (backfill (messageHistory s)))
    as [Ht [rest Hp]].
  pose proof (backfill_real (messageHistory s)) as Hb.
  rewrite Hp in Hb. apply Forall_app in Hb as [Hb _].
  rewrite Forall_forall in *. intros o Ho. split; [|now apply Ht].
  apply Hb. now apply in_map.
Qed.

Lemma only_real_is_stored_or_replayed_witness :
  onlyReal (boot healthy) /\
  onlyReal (step (boot healthy) (OnMessage 1 "new_wallpaper|Art1|New|")).
Proof.
  assert (H : onlyReal (boot healthy)) by (split; constructor).
  split; [exact H|].
  exact (proj1 only_real_is_stored_or_replayed (boot healthy)
           (OnMessage 1 "new_wallpaper|Art1|New|") H).
Defined.

(** ** The history is bounded and has no duplicates *)

Lemma distinct_NoDup (l : list string) : distinct l = true -> NoDup l.
Proof.
  induction l as [|x l IH]; simpl; intros H; constructor.
  - apply andb_true_iff in H as [H _]. apply negb_true_iff in H.
    now apply arrayIncludes_not_In.
  - apply IH. now apply andb_true_iff in H as [_ H].
Qed.

Lemma sliceLast_absorb {A : Type} (n : nat) (a b : list A) :
  Js.sliceLast n (Js.sliceLast n a ++ b) = Js.sliceLast n (a ++ b).
Proof.
  unfold Js.sliceLast. rewrite !length_app, length_skipn, !skipn_app, skipn_skipn.
  rewrite length_skipn. f_equal; f_equal; lia.
Qed.

Lemma recorded_fresh (h : list string) (text : string) :
  ~ In text h -> recorded h text = Js.sliceLast 50 (h ++ [text]).
Proof.
  intros H. unfold recorded. apply arrayIncludes_not_In in H. now rewrite H.
Qed.

Lemma recorded_present (h : list string) (text : string) :
  In text h -> recorded h text = h.
Proof.
  intros H. unfold recorded. apply arrayIncludes_In in H. now rewrite H.
Qed.

(** Distinct real texts offered one after the other pile up at the end of
    the history, which keeps its last fifty entries. *)
Lemma run_offers (es : list Event) (texts : list string) (s : Server) :
  map offered es = map Some texts ->
  Forall (fun text => isRealNotification text = true) texts ->
  NoDup (messageHistory s ++ texts) ->
  List.length (messageHistory s) <= 50 ->
  messageHistory (run s es) = Js.sliceLast 50 (messageHistory s ++ texts).
Proof.
  revert texts s. induction es as [|e es IH]; intros [|t texts] s Hmap Hreal Hnd Hlen;
    try discriminate.
  - simpl. rewrite app_nil_r. now rewrite sliceLast_short.
  - simpl in Hmap. injection Hmap as He Hmap.
    apply Forall_cons_iff in Hreal as [Ht Hreal].
    assert (Hfresh : ~ In t (messageHistory s)).
    { intros Hin. apply NoDup_remove_2 in Hnd. apply Hnd.
      apply in_or_app. now left. }
    assert (Hstep : messageHistory (step s e)
                    = Js.sliceLast 50 (messageHistory s ++ [t])).
    { rewrite step_history, He, Ht. now apply recorded_fresh. }
    cbn [run fold_left]. fold (run (step s e) es).
    rewrite (IH texts (step s e) Hmap Hreal).
    + rewrite Hstep, sliceLast_absorb, <- app_assoc. reflexivity.
    + rewrite Hstep. unfold Js.sliceLast.
      replace (messageHistory s ++ t :: texts)
        with ((messageHistory s ++ [t]) ++ texts) in Hnd
        by now rewrite <- app_assoc.
      apply (skipn_NoDup (List.length (messageHistory s ++ [t]) - 50)) in Hnd.
      rewrite skipn_app in Hnd.
      replace (List.length (messageHistory s ++ [t]) - 50
               - List.length (messageHistory s ++ [t])) with 0 in Hnd by lia.
      exact Hnd.
    + rewrite Hstep, sliceLast_length. lia.
Qed.

Lemma step_history_length (s : Server) (e : Event) :
  List.length (messageHistory s) <= 50 ->
  List.length (messageHistory (step s e)) <= 50.
Proof.
  intros H. rewrite step_history. destruct (offered e) as [text|]; [|exact H].
  destruct (isRealNotification text); [now apply recorded_length | exact H].
Qed.

Lemma step_history_NoDup (s : Server) (e : Event) :
  NoDup (messageHistory s) -> NoDup (messageHistory (step s e)).
Proof.
  intros H. rewrite step_history. destruct (offered e) as [text|]; [|exact H].
  destruct (isRealNotification text); [now apply recorded_NoDup | exact H].
Qed.

(** C3.  The history of a reachable state has at most 50 entries.  A real
    text that is not yet in the history is put at its end, and the history
    that results is the last 50 of the entries: what is lost is a front
    part, as long as the excess over 50.  After 51 distinct real texts
    offered to a server that has just started, the history is the last 50
    of them, in order: its length is 50 and the first text is gone. *)
Theorem history_never_exceeds_fifty :
  (forall s, reachable s -> List.length (messageHistory s) <= 50) /\
  (forall s e text,
      offered e = Some text -> isRealNotification text = true ->
      ~ In text (messageHistory s) ->
      messageHistory (step s e) = Js.sliceLast 50 (messageHistory s ++ [text]) /\
      List.length (messageHistory (step s e))
        = Nat.min 50 (List.length (messageHistory s) + 1) /\
      exists front,
        messageHistory s ++ [text] = front ++ messageHistory (step s e) /\
        List.length front = List.length (messageHistory s) + 1 - 50) /\
  (forall k es first rest,
      map offered es = map Some (first :: rest) ->
      Forall (fun text => isRealNotification text = true) (first :: rest) ->
      NoDup (first :: rest) ->
      List.length rest = 50 ->
      messageHistory (run (boot k) es) = rest /\
      List.length (messageHistory (run (boot k) es)) = 50 /\
      ~ In first (messageHistory (run (boot k) es))).
Proof.
  split.
  { apply reachable_ind; [intros k; simpl; lia | exact step_history_length]. }
  split.
  { intros s e text He Ht Hfresh.
    assert (Hstep : messageHistory (step s e)
                    = Js.sliceLast 50 (messageHistory s ++ [text])).
    { rewrite step_history, He, Ht. now apply recorded_fresh. }
    rewrite Hstep. split; [reflexivity|]. split.
    - rewrite sliceLast_length, length_app. reflexivity.
    - exists (firstn (List.length (messageHistory s ++ [text]) - 50)
                     (messageHistory s ++ [text])).
      unfold Js.sliceLast. rewrite firstn_skipn. split; [reflexivity|].
      rewrite length_firstn, length_app. simpl. lia. }
  intros k es first rest Hmap Hreal Hnd Hlen.
  assert (H : messageHistory (run (boot k) es) = rest).
  { rewrite (run_offers es (first :: rest) (boot k) Hmap Hreal).
    - cbn [boot messageHistory app]. unfold Js.sliceLast. cbn [List.length].
      rewrite Hlen. reflexivity.
    - exact Hnd.
    - simpl. lia. }
  rewrite H. split; [reflexivity|]. split; [exact Hlen|].
  now apply NoDup_cons_iff in Hnd as [Hnd _].
Qed.

Lemma samples_real :
  Forall (fun text => isRealNotification text = true) samples.
Proof. apply Forall_forall, forallb_forall. vm_compute. reflexivity. Qed.

Lemma samples_NoDup : NoDup samples.
Proof. apply distinct_NoDup. vm_compute. reflexivity. Qed.

Lemma history_never_exceeds_fifty_witness :
  messageHistory (run (boot healthy) (map (OnMessage 7) samples)) = tl samples /\
  List.length (messageHistory (run (boot healthy) (map (OnMessage 7) samples))) = 50 /\
  ~ In "wallpaper|0" (messageHistory (run (boot healthy) (map (OnMessage 7) samples))).
Proof.
  apply (proj2 (proj2 history_never_exceeds_fifty) healthy
           (map (OnMessage 7) samples) "wallpaper|0" (tl samples)).
  - reflexivity.
  - exact samples_real.
  - exact samples_NoDup.
  - reflexivity.
Defined.

(** C4.  An event that offers a text already in the history leaves the
    history as it is; offering the same text a second time changes nothing
    after the first; and the history of a reachable state has no entry
    twice. *)
Theorem duplicates_are_not_inserted :
  (forall s e text,
      offered e = Some text -> In text (messageHistory s) ->
      messageHistory (step s e) = messageHistory s) /\
  (forall s e e' text,
      offered e = Some text -> offered e' = Some text ->
      messageHistory (step (step s e) e') = messageHistory (step s e)) /\
  (forall s, reachable s -> NoDup (messageHistory s)).
Proof.
  assert (H1 : forall s e text,
             offered e = Some text -> In text (messageHistory s) ->
             messageHistory (step s e) = messageHistory s).
  { intros s e text He Hin. rewrite step_history, He.
    destruct (isRealNotification text); [now apply recorded_present | reflexivity]. }
  split; [exact H1|]. split.
  - intros s e e' text He He'.
    destruct (isRealNotification text) eqn:Ht.
    + apply (H1 _ _ text He'). rewrite step_history, He, Ht. apply recorded_In.
    + rewrite (step_history (step s e) e'), He', Ht. reflexivity.
  - apply reachable_ind; [intros k; constructor | exact step_history_NoDup].
Qed.

Lemma duplicates_are_not_inserted_witness :
  messageHistory
    (step (step (boot healthy) (OnMessage 1 "new_wallpaper|Art1|New|"))
          (OnPost (Req.mkBody (Some "new_wallpaper") (Some "Art1") (Some "New") None)))
  = ["new_wallpaper|Art1|New|"].
Proof.
  rewrite (proj1 duplicates_are_not_inserted
             (step (boot healthy) (OnMessage 1 "new_wallpaper|Art1|New|"))
             (OnPost (Req.mkBody (Some "new_wallpaper") (Some "Art1") (Some "New") None))
             "new_wallpaper|Art1|New|").
  - reflexivity.
  - reflexivity.
  - vm_compute. now left.
Defined.

(** ** Joining *)

Lemma setAdd_In (c : Conn) (cs : list Conn) : In c (setAdd c cs).
Proof.
  unfold setAdd. destruct (setHas cs c) eqn:E.
  - now apply setHas_In.
  - apply in_or_app. right. now left.
Qed.

(** Whatever a step puts on the wire goes to a registered client or to
    the connection that is joining. *)
Lemma step_targets (s : Server) (e : Event) (o : Output) :
  In o (sentSince s (step s e)) ->
  e = OnConnection (target o) \/ In (target o) (clients s).
Proof.
  unfold step. destruct e as [ws|ws data|ws|ws|body| | |k]; cbn [handle].
  - rewrite connection_run. cbn [snd]. rewrite sentSince_mk. intros Ho. left.
    destruct (replay_outputs (sockets s) ws (backfill (messageHistory s)))
      as [Ht _].
    rewrite Forall_forall in Ht. now rewrite (Ht o Ho).
  - rewrite incoming_run. destruct (isRealNotification data).
    + rewrite broadcastToOthers_run. cbn [snd wire withHistory clients].
      rewrite sentSince_mk. intros Ho. right.
      apply in_map_iff in Ho as [c [<- Hc]]. rewrite target_outputOf.
      now apply filter_In in Hc.
    + cbn [snd]. unfold sentSince. rewrite skipn_all. intros [].
  - cbn. unfold sentSince. cbn. rewrite skipn_all. intros [].
  - cbn. unfold sentSince. cbn. rewrite skipn_all. intros [].
  - unfold bind. rewrite sendNotification_run.
    destruct (incomplete body);
      [cbn [snd]; unfold sentSince; rewrite skipn_all; intros []|].
    destruct (isRealNotification (textOf body));
      [|cbn [snd]; unfold sentSince; rewrite skipn_all; intros []].
    cbv zeta. rewrite broadcastToAll_run. unfold ret.
    cbn [snd wire withHistory clients].
    rewrite sentSince_mk. intros Ho. right.
    apply in_map_iff in Ho as [c [<- Hc]]. rewrite target_outputOf.
    now apply filter_In in Hc.
  - unfold sentSince. destruct (cleanUp_keeps s) as [_ [-> _]].
    rewrite skipn_all. intros [].
  - unfold sentSince. destruct (keepAlive_keeps s) as [_ [-> _]].
    rewrite skipn_all. intros [].
  - cbn. unfold sentSince. cbn. rewrite skipn_all. intros [].
Qed.

(** C5.  When [ws] joins, it is in the set of clients afterwards, even if
    a [send] throws; the history is untouched; everything put on the wire
    is addressed to [ws]; the texts sent are a front part of the backfill,
    in its order, and all of it when no [send] to [ws] throws; and the
    backfill is the end of the list of the entries that pass the
    classifier, of length 5 or of the length of that list when it is
    shorter.  While [ws] is not in the set of clients, no other event
    puts anything on the wire for it. *)
Theorem connection_replays_backfill (s : Server) (ws : Conn) :
  let s' := step s (OnConnection ws) in
  let sent := sentSince s s' in
  let real := filter isRealNotification (messageHistory s) in
  clients s' = setAdd ws (clients s) /\
  In ws (clients s') /\
  messageHistory s' = messageHistory s /\
  Forall (fun o => target o = ws) sent /\
  (exists rest, backfill (messageHistory s) = map payload sent ++ rest) /\
  ((forall m, In m (backfill (messageHistory s)) ->
              sendThrows (sockets s ws) m = None) ->
   fst (connection ws s) = Normal tt /\
   sent = map (Frame ws) (backfill (messageHistory s))) /\
  (exists older, real = older ++ backfill (messageHistory s)) /\
  List.length (backfill (messageHistory s)) = Nat.min 5 (List.length real) /\
  (forall s0 e o,
      ~ In ws (clients s0) -> e <> OnConnection ws ->
      In o (sentSince s0 (step s0 e)) -> target o <> ws).
Proof.
  cbv zeta. unfold step. cbn [handle]. rewrite connection_run. cbn [fst snd].
  rewrite (sentSince_app s _ (snd (replay (sockets s) ws (backfill (messageHistory s)))))
    by reflexivity.
  cbn [clients messageHistory].
  destruct (replay_outputs (sockets s) ws (backfill (messageHistory s)))
    as [Ht Hp].
  split; [reflexivity|]. split; [apply setAdd_In|]. split; [reflexivity|].
  split; [exact Ht|]. split; [exact Hp|]. split.
  - intros H. now rewrite (replay_healthy _ _ _ H).
  - split.
    + exists (firstn (List.length (filter isRealNotification (messageHistory s)) - 5)
                     (filter isRealNotification (messageHistory s))).
      unfold backfill, Js.sliceLast. now rewrite firstn_skipn.
    + split; [apply sliceLast_length|].
      intros s0 e o Hout He Ho Heq.
      destruct (step_targets s0 e o Ho) as [H|H]; subst; contradiction.
Qed.

Lemma connection_replays_backfill_witness :
  sentSince (run (boot healthy) (map (OnMessage 7) samples))
            (step (run (boot healthy) (map (OnMessage 7) samples)) (OnConnection 3))
  = map (Frame 3)
        ["wallpaper|^"; "wallpaper|_"; "wallpaper|`"; "wallpaper|a"; "wallpaper|b"].
Proof.
  apply (proj1 (proj2 (proj2 (proj2 (proj2 (proj2
           (connection_replays_backfill
              (run (boot healthy) (map (OnMessage 7) samples)) 3))))))).
  intros m _. reflexivity.
Defined.

(** ** Broadcasting *)

Lemma filter_In_iff {A : Type} (f : A -> bool) (x : A) (l : list A) :
  In x (filter f l) <-> In x l /\ f x = true.
Proof. apply filter_In. Qed.



(** C7.  Neither broadcast throws, whatever the sockets do.  The clients
    left in the set are the ones it held, less those on which [send] was
    called and threw; and every client that was open, was addressed and
    whose own [send] returns has the frame, whatever happened to the
    others.  The history is not touched. *)
Theorem send_failure_is_isolated (s : Server) (sender : Conn) (message : string) :
  let k := sockets s in
  let all := broadcastToAll message s in
  let others := broadcastToOthers sender message s in
  fst all = Normal tt /\
  fst others = Normal tt /\
  clients (snd all)
    = filter (fun c => negb (isOpen k c && sendFails k message c)) (clients s) /\
  clients (snd others)
    = filter (fun c => negb ((negb (Nat.eqb c sender) && isOpen k c)
                             && sendFails k message c)) (clients s) /\
  (forall c, In c (clients s) -> isOpen k c = true ->
             sendFails k message c = false ->
             In (Frame c message) (sentSince s (snd all)) /\
             In c (clients (snd all))) /\
  (forall c, In c (clients s) -> isOpen k c = true -> c <> sender ->
             sendFails k message c = false ->
             In (Frame c message) (sentSince s (snd others)) /\
             In c (clients (snd others))) /\
  (forall c, In c (clients s) -> isOpen k c = true ->
             sendFails k message c = true ->
             ~ In c (clients (snd all))) /\
  messageHistory (snd all) = messageHistory s /\
  messageHistory (snd others) = messageHistory s.
Proof.
  cbv zeta. rewrite broadcastToOthers_run, broadcastToAll_run. cbn [fst snd].
  rewrite !sentSince_mk.
  cbn [clients messageHistory].
  repeat (split; [reflexivity|]).
  split; [|split; [|split; [|split; reflexivity]]].
  - intros c Hc Ho Hf. split.
    + apply in_map_iff. exists c. split.
      * unfold outputOf. now rewrite Hf.
      * apply filter_In_iff. now split.
    + apply filter_In_iff. split; [exact Hc|].
      unfold dropped. now rewrite Hf, andb_false_r.
  - intros c Hc Ho Hs Hf. split.
    + apply in_map_iff. exists c. split.
      * unfold outputOf. now rewrite Hf.
      * apply filter_In_iff. split; [exact Hc|]. unfold addressed.
        rewrite Ho, andb_true_r. now apply negb_true_iff, Nat.eqb_neq.
    + apply filter_In_iff. split; [exact Hc|].
      unfold dropped. now rewrite Hf, andb_false_r.
  - intros c Hc Ho Hf Hin. apply filter_In_iff in Hin as [_ Hin].
    unfold dropped, addressed in Hin. rewrite Ho, Hf in Hin. discriminate.
Qed.

Lemma send_failure_is_isolated_witness :
  In (Frame 3 "hello")
     (sentSince (mkServer [1; 2; 3] [] oneBroken [])
                (snd (broadcastToAll "hello" (mkServer [1; 2; 3] [] oneBroken [])))) /\
  In 3 (clients (snd (broadcastToAll "hello" (mkServer [1; 2; 3] [] oneBroken [])))).
Proof.
  apply (proj1 (proj2 (proj2 (proj2 (proj2
           (send_failure_is_isolated (mkServer [1; 2; 3] [] oneBroken []) 0 "hello")))))).
  - vm_compute. tauto.
  - reflexivity.
  - reflexivity.
Defined.

(** ** Submissions *)

Lemma falsy_iff (v : option string) :
  falsy v = true <-> v = None \/ v = Some "".
Proof.
  destruct v as [[|c x]|]; simpl; split; intros H; try tauto; try discriminate.
  destruct H as [H|H]; discriminate.
Qed.

(** The handler on any body, case by case. *)
Lemma sendNotificationJson_run (errors : TypeErrors) (reqBody : option Json)
  (s : Server) :
  sendNotificationJson errors reqBody s =
  match destructure reqBody with
  | None =>
      (Normal (Res.mkJson 500 false None (Some (cannotDestructure errors reqBody))
                 None None), s)
  | Some bound =>
      if allTruthy bound then
        match template (Raw.type bound) (Raw.title bound) (Raw.message bound)
                       (extraOrEmpty bound) with
        | None =>
            (Normal (Res.mkJson 500 false None (Some (cannotConvert errors))
                       None None), s)
        | Some text =>
            if isRealNotification text then
              let s' := snd (broadcastToAll text
                               (withHistory (recorded (messageHistory s) text) s)) in
              (Normal (Res.mkJson 200 true
                         (Some "Real notification sent successfully")
                         None (Some (List.length (clients s'))) (Some text)), s')
            else
              (Normal (Res.mkJson 200 false
                         (Some "System message filtered out - not a real notification")
                         None None (Some text)), s)
        end
      else
        (Normal (Res.mkJson 400 false None
                   (Some "Missing required fields: type, title, message")
                   None None), s)
  end.
Proof.
  unfold sendNotificationJson, tryCatch, bind.
  destruct (destructure reqBody) as [bound|]; [|reflexivity].
  cbn [orThrow ret]. cbv zeta. unfold allTruthy. fold (extraOrEmpty bound).
  destruct (truthy (Raw.type bound)), (truthy (Raw.title bound)),
    (truthy (Raw.message bound)); cbn [negb orb andb]; try reflexivity.
  destruct (template _ _ _ _) as [text|]; [|reflexivity].
  cbn [orThrow ret].
  destruct (isRealNotification text); [|reflexivity].
  rewrite recordIfNew_run, broadcastToAll_run. reflexivity.
Qed.

Lemma asString_reads (v : option Json) (o : option string) :
  asString v = Some o ->
  v = option_map JString o /\ truthy v = negb (falsy o) /\
  interpolateJson v = Some (interpolate o).
Proof.
  destruct v as [[]|]; cbn; intros H; try discriminate;
    injection H as <-; cbn; repeat split.
  now destruct s.
Qed.

Lemma stringFields_reads (reqBody : option Json) (body : Req.body) :
  stringFields reqBody = Some body ->
  exists bound,
    destructure reqBody = Some bound /\
    Raw.type bound = option_map JString (Req.type body) /\
    Raw.title bound = option_map JString (Req.title body) /\
    Raw.message bound = option_map JString (Req.message body) /\
    Raw.extraData bound = option_map JString (Req.extraData body) /\
    allTruthy bound = negb (incomplete body) /\
    template (Raw.type bound) (Raw.title bound) (Raw.message bound)
             (extraOrEmpty bound) = Some (textOf body).
Proof.
  unfold stringFields. destruct (destructure reqBody) as [bound|]; [|discriminate].
  destruct (asString (Raw.type bound)) as [a|] eqn:Ea; [|discriminate].
  destruct (asString (Raw.title bound)) as [b|] eqn:Eb; [|discriminate].
  destruct (asString (Raw.message bound)) as [c|] eqn:Ec; [|discriminate].
  destruct (asString (Raw.extraData bound)) as [d|] eqn:Ed; [|discriminate].
  intros H. injection H as <-. exists bound.
  apply asString_reads in Ea as [Ha1 [Ha2 Ha3]].
  apply asString_reads in Eb as [Hb1 [Hb2 Hb3]].
  apply asString_reads in Ec as [Hc1 [Hc2 Hc3]].
  apply asString_reads in Ed as [Hd1 [Hd2 Hd3]].
  cbn [Req.type Req.title Req.message Req.extraData].
  repeat (split; [first [reflexivity | assumption]|]). split.
  - unfold allTruthy, incomplete. cbn [Req.type Req.title Req.message].
    rewrite Ha2, Hb2, Hc2. now rewrite !negb_orb.
  - unfold template, textOf. cbn [Req.type Req.title Req.message Req.extraData].
    rewrite Ha3, Hb3, Hc3. unfold extraOrEmpty. rewrite Hd1.
    destruct d; reflexivity.
Qed.

(** On a body whose fields are absent or strings the handler is
    [sendNotification]. *)
Lemma sendNotificationJson_stringFields (errors : TypeErrors)
  (reqBody : option Json) (body : Req.body) (s : Server) :
  stringFields reqBody = Some body ->
  sendNotificationJson errors reqBody s = sendNotification body s.
Proof.
  intros H. destruct (stringFields_reads _ _ H) as [bound [Hd [_ [_ [_ [_ [Ht Htext]]]]]]].
  rewrite sendNotificationJson_run, sendNotification_run, Hd, Ht, Htext.
  now destruct (incomplete body).
Qed.

Lemma reachable_step (s : Server) (e : Event) :
  reachable s -> reachable (step s e).
Proof.
  intros [k [es ->]]. exists k, (es ++ [e]). now rewrite run_snoc.
Qed.

Lemma outside_the_set (cs : list Conn) : ~ In (S (list_max cs)) cs.
Proof.
  intros H. assert (Hle : list_max cs <= list_max cs) by lia.
  apply list_max_le in Hle. rewrite Forall_forall in Hle.
  apply Hle in H. lia.
Qed.

(** A submission of any body leads to no state that inbound messages do
    not lead to: either nothing changes, or the state is the one left by
    the same text coming from a connection outside the set. *)
Lemma sendNotificationJson_state (errors : TypeErrors) (reqBody : option Json)
  (s : Server) :
  snd (sendNotificationJson errors reqBody s) = s \/
  exists text,
    builtText reqBody = Some text /\
    snd (sendNotificationJson errors reqBody s)
    = step s (OnMessage (S (list_max (clients s))) text).
Proof.
  rewrite sendNotificationJson_run. unfold builtText.
  destruct (destructure reqBody) as [bound|]; [|now left].
  destruct (allTruthy bound); [|now left].
  destruct (template _ _ _ _) as [text|]; [|now left].
  destruct (isRealNotification text) eqn:Er; [|now left].
  right. exists text. split; [reflexivity|].
  cbv zeta. cbn [snd]. unfold step. cbn [handle].
  rewrite incoming_run, Er, broadcastToAll_run, broadcastToOthers_run.
  cbn [snd clients sockets withHistory messageHistory wire].
  assert (Hne : forall c, In c (clients s)
                -> negb (Nat.eqb c (S (list_max (clients s)))) = true).
  { intros c Hin. apply negb_true_iff, Nat.eqb_neq. intros ->.
    now apply outside_the_set in Hin. }
  f_equal.
  - apply filter_ext_in. intros c Hin. unfold dropped, addressed.
    now rewrite (Hne c Hin).
  - f_equal. f_equal. apply filter_ext_in. intros c Hin. unfold addressed.
    now rewrite (Hne c Hin).
Qed.

Lemma sendNotificationJson_reachable (errors : TypeErrors)
  (reqBody : option Json) (s : Server) :
  reachable s -> reachable (snd (sendNotificationJson errors reqBody s)).
Proof.
  intros H. destruct (sendNotificationJson_state errors reqBody s)
    as [-> | [text [_ ->]]]; [exact H | now apply reachable_step].
Qed.

(** C8, as amended.  [sendNotificationJson] always answers.

    On a body that can be destructured and whose four fields are absent
    or strings: if [type], [title] or [message] is absent or empty the
    answer is 400 with [success: false] and the state is left as it was;
    otherwise the text is [type|title|message|extraData], with nothing for
    an absent [extraData]; if the text is real it is recorded unless
    already there, [send] is called on every open client, and the answer
    is 200 with [success: true] and the size of the set after the
    broadcast; if it is not, the answer is 200 with [success: false] and
    the state is left as it was.

    On the other bodies: a body that is [undefined] or [null], and a
    field that cannot be made a string, are answered 500 with
    [success: false] and the state left as it was; a required field that
    is not truthy is answered 400 as an absent one; and a text built from
    fields that are not strings is handled as any other text. *)
Theorem submission_outcomes (errors : TypeErrors) (reqBody : option Json)
  (s : Server) :
  let s' := snd (sendNotificationJson errors reqBody s) in
  exists json,
    fst (sendNotificationJson errors reqBody s) = Normal json /\
    (forall body,
        stringFields reqBody = Some body ->
        let text := textOf body in
        (exists bound,
            destructure reqBody = Some bound /\
            Raw.type bound = option_map JString (Req.type body) /\
            Raw.title bound = option_map JString (Req.title body) /\
            Raw.message bound = option_map JString (Req.message body) /\
            Raw.extraData bound = option_map JString (Req.extraData body)) /\
        (incomplete body = true <->
         (Req.type body = None \/ Req.type body = Some "") \/
         (Req.title body = None \/ Req.title body = Some "") \/
         (Req.message body = None \/ Req.message body = Some "")) /\
        (incomplete body = true ->
           Res.status json = 400 /\ Res.success json = false /\ s' = s) /\
        (incomplete body = false -> isRealNotification text = true ->
           Res.status json = 200 /\ Res.success json = true /\
           Res.clients json = Some (List.length (clients s')) /\
           Res.notification json = Some text /\
           messageHistory s' = recorded (messageHistory s) text /\
           sentSince s s' = map (outputOf (sockets s) text)
                                (filter (isOpen (sockets s)) (clients s)) /\
           clients s' = filter (fun c => negb (isOpen (sockets s) c
                                              && sendFails (sockets s) text c))
                               (clients s)) /\
        (incomplete body = false -> isRealNotification text = false ->
           Res.status json = 200 /\ Res.success json = false /\
           Res.clients json = None /\ s' = s)) /\
    (forall ty ti me ex,
        textOf (Req.mkBody (Some ty) (Some ti) (Some me) ex)
        = (ty ++ "|" ++ ti ++ "|" ++ me ++ "|"
              ++ match ex with Some x => x | None => "" end)%string) /\
    (destructure reqBody = None ->
       Res.status json = 500 /\ Res.success json = false /\
       Res.error json = Some (cannotDestructure errors reqBody) /\ s' = s) /\
    (forall bound,
        destructure reqBody = Some bound -> allTruthy bound = false ->
        Res.status json = 400 /\ Res.success json = false /\ s' = s) /\
    (forall bound,
        destructure reqBody = Some bound -> allTruthy bound = true ->
        template (Raw.type bound) (Raw.title bound) (Raw.message bound)
                 (extraOrEmpty bound) = None ->
        Res.status json = 500 /\ Res.success json = false /\
        Res.error json = Some (cannotConvert errors) /\ s' = s) /\
    (forall bound text,
        destructure reqBody = Some bound -> allTruthy bound = true ->
        template (Raw.type bound) (Raw.title bound) (Raw.message bound)
                 (extraOrEmpty bound) = Some text ->
        (isRealNotification text = true ->
           Res.status json = 200 /\ Res.success json = true /\
           Res.clients json = Some (List.length (clients s')) /\
           Res.notification json = Some text /\
           messageHistory s' = recorded (messageHistory s) text /\
           sentSince s s' = map (outputOf (sockets s) text)
                                (filter (isOpen (sockets s)) (clients s))) /\
        (isRealNotification text = false ->
           Res.status json = 200 /\ Res.success json = false /\ s' = s)).
Proof.
  cbv zeta.
  assert (General :
    exists json,
      fst (sendNotificationJson errors reqBody s) = Normal json /\
      (destructure reqBody = None ->
         Res.status json = 500 /\ Res.success json = false /\
         Res.error json = Some (cannotDestructure errors reqBody) /\
         snd (sendNotificationJson errors reqBody s) = s) /\
      (forall bound,
          destructure reqBody = Some bound -> allTruthy bound = false ->
          Res.status json = 400 /\ Res.success json = false /\
          snd (sendNotificationJson errors reqBody s) = s) /\
      (forall bound,
          destructure reqBody = Some bound -> allTruthy bound = true ->
          template (Raw.type bound) (Raw.title bound) (Raw.message bound)
                   (extraOrEmpty bound) = None ->
          Res.status json = 500 /\ Res.success json = false /\
          Res.error json = Some (cannotConvert errors) /\
          snd (sendNotificationJson errors reqBody s) = s) /\
      (forall bound text,
          destructure reqBody = Some bound -> allTruthy bound = true ->
          template (Raw.type bound) (Raw.title bound) (Raw.message bound)
                   (extraOrEmpty bound) = Some text ->
          (isRealNotification text = true ->
             Res.status json = 200 /\ Res.success json = true /\
             Res.clients json
               = Some (List.length
                         (clients (snd (sendNotificationJson errors reqBody s)))) /\
             Res.notification json = Some text /\
             messageHistory (snd (sendNotificationJson errors reqBody s))
               = recorded (messageHistory s) text /\
             sentSince s (snd (sendNotificationJson errors reqBody s))
               = map (outputOf (sockets s) text)
                     (filter (isOpen (sockets s)) (clients s)) /\
             clients (snd (sendNotificationJson errors reqBody s))
               = filter (fun c => negb (isOpen (sockets s) c
                                        && sendFails (sockets s) text c))
                        (clients s)) /\
          (isRealNotification text = false ->
             Res.status json = 200 /\ Res.success json = false /\
             Res.clients json = None /\
             snd (sendNotificationJson errors reqBody s) = s))).
  { rewrite sendNotificationJson_run.
    destruct (destructure reqBody) as [bound|].
    - destruct (allTruthy bound) eqn:Et.
      + destruct (template _ _ _ _) as [text|] eqn:Etext.
        * destruct (isRealNotification text) eqn:Er.
          -- cbv zeta. rewrite broadcastToAll_run. cbn [fst snd].
             eexists. split; [reflexivity|]. split; [discriminate|].
             split; [intros b Hb; injection Hb as <-; congruence|].
             split; [intros b Hb; injection Hb as <-; congruence|].
             intros b t Hb _ Ht. injection Hb as <-.
             rewrite Etext in Ht. injection Ht as <-.
             split; [|congruence]. intros _.
             cbn [Res.status Res.success Res.clients Res.notification clients
                  messageHistory withHistory wire sockets].
             rewrite sentSince_mk. repeat split.
          -- eexists. cbn [fst snd]. split; [reflexivity|]. split; [discriminate|].
             split; [intros b Hb; injection Hb as <-; congruence|].
             split; [intros b Hb; injection Hb as <-; congruence|].
             intros b t Hb _ Ht. injection Hb as <-.
             rewrite Etext in Ht. injection Ht as <-.
             split; [congruence|]. intros _. cbn. repeat split.
        * eexists. cbn [fst snd]. split; [reflexivity|]. split; [discriminate|].
          split; [intros b Hb; injection Hb as <-; congruence|].
          split; [intros b Hb _ _; cbn; repeat split|].
          intros b t Hb _ Ht. injection Hb as <-. congruence.
      + eexists. cbn [fst snd]. split; [reflexivity|]. split; [discriminate|].
        split; [intros b Hb _; cbn; repeat split|].
        split; intros b; intros; match goal with
          | H : Some _ = Some _ |- _ => injection H as <-; congruence end.
    - eexists. cbn [fst snd]. split; [reflexivity|].
      split; [intros _; cbn; repeat split|].
      repeat split; intros; discriminate. }
  destruct General as [json [Hj [Hnone [Hfalsy [Hthrow Hbuilt]]]]].
  exists json. split; [exact Hj|]. split.
  { intros body Hbody.
    destruct (stringFields_reads _ _ Hbody)
      as [bound [Hd [H1 [H2 [H3 [H4 [Ht Htext]]]]]]].
    split; [now exists bound|]. split.
    { unfold incomplete. rewrite !orb_true_iff, !falsy_iff. tauto. }
    split; [|split].
    - intros Hi. apply (Hfalsy bound Hd). now rewrite Ht, Hi.
    - intros Hi Hr.
      assert (Ht' : allTruthy bound = true) by now rewrite Ht, Hi.
      exact (proj1 (Hbuilt bound _ Hd Ht' Htext) Hr).
    - intros Hi Hr.
      assert (Ht' : allTruthy bound = true) by now rewrite Ht, Hi.
      exact (proj2 (Hbuilt bound _ Hd Ht' Htext) Hr). }
  split; [intros ty ti me [ex|]; reflexivity|].
  split; [exact Hnone|]. split; [exact Hfalsy|]. split; [exact Hthrow|].
  intros bound text Hd Ht Htext.
  destruct (Hbuilt bound text Hd Ht Htext) as [Hr Hn]. split.
  - intros H. destruct (Hr H) as (A & B & C & D & E & F & _).
    repeat (split; [assumption|]). assumption.
  - intros H. destruct (Hn H) as (A & B & _ & D). now repeat split.
Qed.

Lemma submission_outcomes_witness :
  exists json,
    fst (sendNotificationJson v8 handshakeJson (mkServer [1; 2] [] healthy []))
      = Normal json /\
    Res.status json = 200 /\ Res.success json = false /\
    Res.clients json = None /\
    snd (sendNotificationJson v8 handshakeJson (mkServer [1; 2] [] healthy []))
    = mkServer [1; 2] [] healthy [].
Proof.
  destruct (submission_outcomes v8 handshakeJson (mkServer [1; 2] [] healthy []))
    as [json [Hj [H _]]].
  exists json. split; [exact Hj|].
  apply (H handshake); reflexivity.
Defined.

(** The claim as the specification words it fails at a body whose three
    required fields are all present and none of them empty: the first
    cannot be made a string, and the answer is 500. *)
Lemma submission_with_present_fields_answered_500 :
  destructure unconvertible
  = Some (Raw.mkFields (Some (JObject [("toString", JNumber false "1")]))
                       (Some (JString "Art1"))
                       (Some (JString "New wallpaper available"))
                       None) /\
  sendNotificationJson v8 unconvertible (mkServer [1; 2] [] healthy [])
  = (Normal (Res.mkJson 500 false None
               (Some "Cannot convert object to primitive value") None None),
     mkServer [1; 2] [] healthy []).
Proof. split; reflexivity. Qed.

Example submit_art1 :
  sendNotification art1 (mkServer [1; 2] [] healthy []) =
  (Normal (Res.mkJson 200 true (Some "Real notification sent successfully")
             None (Some 2) (Some "new_wallpaper|Art1|New wallpaper available|")),
   mkServer [1; 2] ["new_wallpaper|Art1|New wallpaper available|"] healthy
            [Frame 1 "new_wallpaper|Art1|New wallpaper available|";
             Frame 2 "new_wallpaper|Art1|New wallpaper available|"]).
Proof. reflexivity. Qed.

(** ** The initial-data request *)

(** C9.  An inbound text in which [request_initial_data] occurs is
    handled without a throw and leaves the whole state, the history and
    the wire among it, as it was. *)
Theorem request_initial_data_is_silent (ws : Conn) (data : string) (s : Server) :
  (exists pre post, data = (pre ++ "request_initial_data" ++ post)%string) ->
  Js.includes data "request_initial_data" = true /\
  incoming ws data s = (Normal tt, s) /\
  step s (OnMessage ws data) = s /\
  sentSince s (step s (OnMessage ws data)) = [].
Proof.
  intros H. apply includes_spec in H.
  assert (Hrun : incoming ws data s = (Normal tt, s)).
  { unfold incoming, tryCatch. cbv zeta. now rewrite H. }
  split; [exact H|]. split; [exact Hrun|].
  unfold step. cbn [handle]. rewrite Hrun. cbn [snd].
  split; [reflexivity|]. unfold sentSince. apply skipn_all.
Qed.

Lemma request_initial_data_is_silent_witness :
  incoming 1 "client:request_initial_data:v2"
           (mkServer [1; 2] ["wallpaper|a"] healthy [])
  = (Normal tt, mkServer [1; 2] ["wallpaper|a"] healthy []).
Proof.
  apply (request_initial_data_is_silent 1 "client:request_initial_data:v2"
           (mkServer [1; 2] ["wallpaper|a"] healthy [])).
  exists "client:", ":v2". reflexivity.
Defined.

(** ** Deduplication looks at the present history only *)

(** C10.  There is a run in which a real text is stored and sent to the
    other client, then pushed out of the history by fifty newer ones, and
    in which the same text, offered once more, is put at the end of the
    history again and sent to the other client again. *)
Theorem evicted_text_is_stored_and_broadcast_again :
  exists (k : Conn -> Socket) (before after : list Event) (ws other : Conn)
         (text : string),
    let s0 := run (boot k) before in
    let s1 := run s0 after in
    let s2 := step s1 (OnMessage ws text) in
    isRealNotification text = true /\
    In text (messageHistory s0) /\
    In (Frame other text) (wire s0) /\
    ~ In text (messageHistory s1) /\
    List.length (messageHistory s1) = 50 /\
    messageHistory s2 = tl (messageHistory s1) ++ [text] /\
    sentSince s1 s2 = [Frame other text].
Proof.
  exists healthy,
         [OnConnection 0; OnConnection 1; OnMessage 0 "wallpaper|0"],
         (map (OnMessage 0) (tl samples)), 0, 1, "wallpaper|0".
  cbv zeta. split; [reflexivity|]. split; [vm_compute; now left|].
  split; [vm_compute; now left|]. split; [|split; [|split]].
  - apply arrayIncludes_not_In. vm_compute. reflexivity.
  - vm_compute. reflexivity.
  - vm_compute. reflexivity.
  - vm_compute. reflexivity.
Qed.

(** ** The list of clients is a set *)

Lemma setAdd_NoDup (c : Conn) (cs : list Conn) : NoDup cs -> NoDup (setAdd c cs).
Proof.
  intros H. unfold setAdd. destruct (setHas cs c) eqn:E; [exact H|].
  apply NoDup_app; [exact H | repeat constructor; intros [] |].
  intros x Hx [<- | []]. apply setHas_In in Hx. congruence.
Qed.

Lemma forEach_delete_NoDup (f : Conn -> Stmt unit) (l : list Conn) (s : Server) :
  (forall c s1, NoDup (clients s1) -> NoDup (clients (snd (f c s1)))) ->
  NoDup (clients s) -> NoDup (clients (snd (forEach l f s))).
Proof.
  intros Hf. apply (forEach_keeps (fun s1 => NoDup (clients s1))). exact Hf.
Qed.

(** X16.  No connection is twice in the set of clients of a reachable
    state, so the list stands for the [Set] of the source. *)
Lemma clients_NoDup (s : Server) : reachable s -> NoDup (clients s).
Proof.
  revert s. apply reachable_ind; [intros k; constructor|].
  intros s e H. unfold step.
  destruct e as [ws|ws data|ws|ws|body| | |k]; cbn [handle].
  - rewrite connection_run. cbn [snd clients]. now apply setAdd_NoDup.
  - rewrite incoming_run. destruct (isRealNotification data); [|exact H].
    rewrite broadcastToOthers_run. cbn [snd clients withHistory].
    now apply NoDup_filter.
  - now apply NoDup_filter.
  - now apply NoDup_filter.
  - unfold bind. rewrite sendNotification_run.
    destruct (incomplete body); [exact H|].
    destruct (isRealNotification (textOf body)); [|exact H].
    cbv zeta. rewrite broadcastToAll_run. cbn [snd clients withHistory].
    now apply NoDup_filter.
  - unfold cleanUp. apply forEach_delete_NoDup; [|exact H].
    intros c s1 H1. now apply NoDup_filter.
  - unfold keepAlive, clientsForEach. apply forEach_delete_NoDup; [|exact H].
    intros c s1 H1. unfold bind, getReadyState.
    destruct (isOPEN (readyState (sockets s1 c))); [|exact H1].
    unfold tryCatch, ping. destruct (pingThrows (sockets s1 c)); [|exact H1].
    now apply NoDup_filter.
  - exact H.
Qed.

(** * Further properties of the code *)

(** ** The classifier on composed texts *)

Section ClassifierFacts.

Local Open Scope string_scope.

Lemma string_app_assoc (a b c : string) : (a ++ b) ++ c = a ++ b ++ c.
Proof. induction a as [|x a IH]; simpl; [reflexivity | now rewrite IH]. Qed.

(** X1.  A text in which a text that is not real occurs is not real
    either: nothing written before or after a marker gets it past the
    classifier. *)
Theorem not_real_wherever_embedded (pre text post : string) :
  isRealNotification text = false ->
  isRealNotification (pre ++ text ++ post) = false.
Proof.
  rewrite !isRealNotification_false_iff.
  intros [marker [Hm [pre0 [mid [post0 [-> Hs]]]]]].
  exists marker. split; [exact Hm|].
  exists (pre ++ pre0), mid, (post0 ++ post). split; [|exact Hs].
  now rewrite !string_app_assoc.
Qed.

Lemma not_real_wherever_embedded_witness :
  isRealNotification ("sale|Shop" ++ "ping" ++ " deals|50% off|") = false.
Proof.
  apply (not_real_wherever_embedded "sale|Shop" "ping" " deals|50% off|").
  reflexivity.
Defined.

(** A pattern without the character [c] cannot start in [x] and run over
    a [c] that follows [x]. *)
Lemma startsWith_sep (c : ascii) (m x y : string) :
  Js.includes m (String c "") = false ->
  Js.startsWith (x ++ String c y) m = Js.startsWith x m.
Proof.
  revert x. induction m as [|b m IH]; intros x H; [reflexivity|].
  cbn [Js.includes Js.startsWith] in H. apply orb_false_iff in H as [Hb Hm].
  rewrite andb_true_r in Hb.
  destruct x as [|a x]; cbn [append Js.startsWith].
  - now rewrite Ascii.eqb_sym, Hb.
  - now rewrite IH.
Qed.

Lemma includes_sep (c : ascii) (m x y : string) :
  Js.includes m (String c "") = false ->
  Js.includes (x ++ String c y) m = Js.includes x m || Js.includes y m.
Proof.
  intros H. induction x as [|a x IH].
  - cbn [append Js.includes].
    change (String c y) with ("" ++ String c y) at 1.
    now rewrite (startsWith_sep c m "" y H).
  - cbn [append Js.includes]. rewrite IH.
    change (String a (x ++ String c y)) with (String a x ++ String c y).
    rewrite (startsWith_sep c m (String a x) y H). now rewrite orb_assoc.
Qed.

Lemma existsb_orb {A : Type} (f g : A -> bool) (l : list A) :
  existsb (fun x => f x || g x) l = existsb f l || existsb g l.
Proof.
  induction l as [|x l IH]; simpl; [reflexivity|]. rewrite IH.
  destruct (f x), (g x), (existsb f l), (existsb g l); reflexivity.
Qed.

Lemma existsb_agree {A : Type} (f g : A -> bool) (l : list A) :
  (forall x, In x l -> f x = g x) -> existsb f l = existsb g l.
Proof.
  induction l as [|x l IH]; intros H; simpl; [reflexivity|].
  rewrite (H x) by now left. rewrite IH; [reflexivity|].
  intros y Hy. apply H. now right.
Qed.

(** No keyword holds the separator of the fields. *)
Lemma keywords_have_no_bar (keyword : string) :
  In keyword systemKeywords ->
  Js.includes (Js.toLowerCase keyword) "|" = false.
Proof.
  unfold systemKeywords; simpl.
  intros H; repeat (destruct H as [<- | H]; [reflexivity|]); contradiction.
Qed.

Lemma isRealNotification_bar (x y : string) :
  isRealNotification (x ++ "|" ++ y)
  = isRealNotification x && isRealNotification y.
Proof.
  unfold isRealNotification. cbv zeta. rewrite <- negb_orb, <- existsb_orb.
  f_equal. apply existsb_agree. intros keyword Hk.
  rewrite toLowerCase_app. cbn [Js.toLowerCase append].
  change (Js.toLowerCaseChar "|") with "|"%char.
  apply includes_sep. now apply keywords_have_no_bar.
Qed.

End ClassifierFacts.

(** ** Submissions, field by field *)

Lemma textOf_real (body : Req.body) :
  isRealNotification (textOf body)
  = isRealNotification (interpolate (Req.type body))
    && isRealNotification (interpolate (Req.title body))
    && isRealNotification (interpolate (Req.message body))
    && isRealNotification (interpolate (orDefault "" (Req.extraData body))).
Proof.
  unfold textOf. rewrite !isRealNotification_bar. now rewrite !andb_assoc.
Qed.

Lemma template_real (a b c d : string) :
  isRealNotification (a ++ "|" ++ b ++ "|" ++ c ++ "|" ++ d)%string
  = isRealNotification a && isRealNotification b
    && isRealNotification c && isRealNotification d.
Proof. rewrite !isRealNotification_bar. now rewrite !andb_assoc. Qed.

Lemma template_parts (ty ti me ex : option Json) (text : string) :
  template ty ti me ex = Some text <->
  exists a b c d,
    interpolateJson ty = Some a /\ interpolateJson ti = Some b /\
    interpolateJson me = Some c /\ interpolateJson ex = Some d /\
    text = (a ++ "|" ++ b ++ "|" ++ c ++ "|" ++ d)%string.
Proof.
  unfold template. split.
  - destruct (interpolateJson ty) as [a|]; [|discriminate].
    destruct (interpolateJson ti) as [b|]; [|discriminate].
    destruct (interpolateJson me) as [c|]; [|discriminate].
    destruct (interpolateJson ex) as [d|]; [|discriminate].
    intros H. injection H as <-. now exists a, b, c, d.
  - intros (a & b & c & d & -> & -> & -> & -> & ->). reflexivity.
Qed.

(** X2.  A submission is answered [success: true] exactly when the body
    can be destructured, [type], [title] and [message] are truthy, each of
    the four fields, with the empty string for an absent [extraData], can
    be made a string, and each of these strings is a real notification
    taken alone: strings joined by [|] cannot form a marker together. *)
Theorem submission_is_judged_field_by_field (errors : TypeErrors)
  (reqBody : option Json) (s : Server) :
  exists json,
    fst (sendNotificationJson errors reqBody s) = Normal json /\
    (Res.success json = true <->
     exists bound a b c d,
       destructure reqBody = Some bound /\
       truthy (Raw.type bound) = true /\
       truthy (Raw.title bound) = true /\
       truthy (Raw.message bound) = true /\
       interpolateJson (Raw.type bound) = Some a /\
       interpolateJson (Raw.title bound) = Some b /\
       interpolateJson (Raw.message bound) = Some c /\
       interpolateJson (extraOrEmpty bound) = Some d /\
       isRealNotification a = true /\ isRealNotification b = true /\
       isRealNotification c = true /\ isRealNotification d = true).
Proof.
  rewrite sendNotificationJson_run.
  destruct (destructure reqBody) as [bound|].
  - destruct (allTruthy bound) eqn:Et.
    + destruct (template _ _ _ _) as [text|] eqn:Etext.
      * pose proof Etext as Hparts.
        apply template_parts in Hparts as (a & b & c & d & Ha & Hb & Hc & Hd & ->).
        unfold allTruthy in Et. rewrite !andb_true_iff in Et.
        destruct Et as [[T1 T2] T3].
        destruct (isRealNotification (a ++ "|" ++ b ++ "|" ++ c ++ "|" ++ d))
          eqn:Er; cbv zeta; eexists; (split; [reflexivity|]);
          cbn [Res.success]; rewrite template_real in Er.
        -- split; [|reflexivity]. intros _.
           rewrite !andb_true_iff in Er. destruct Er as [[[R1 R2] R3] R4].
           exists bound, a, b, c, d. repeat (split; [first [reflexivity | assumption]|]).
           assumption.
        -- split; [discriminate|].
           intros (bound' & a' & b' & c' & d' & Hd' & _ & _ & _
                   & Ha' & Hb' & Hc' & Hx' & R1 & R2 & R3 & R4).
           injection Hd' as <-.
           rewrite Ha in Ha'. rewrite Hb in Hb'. rewrite Hc in Hc'.
           rewrite Hd in Hx'.
           injection Ha' as <-. injection Hb' as <-.
           injection Hc' as <-. injection Hx' as <-.
           rewrite R1, R2, R3, R4 in Er. discriminate Er.
      * eexists. split; [reflexivity|]. cbn [Res.success].
        split; [discriminate|].
        intros (bound' & a & b & c & d & Hd' & _ & _ & _ & Ha & Hb & Hc & Hx & _).
        injection Hd' as <-.
        assert (H : template (Raw.type bound) (Raw.title bound)
                      (Raw.message bound) (extraOrEmpty bound)
                    = Some (a ++ "|" ++ b ++ "|" ++ c ++ "|" ++ d)%string).
        { apply template_parts. now exists a, b, c, d. }
        rewrite Etext in H. discriminate H.
    + eexists. split; [reflexivity|]. cbn [Res.success].
      split; [discriminate|].
      intros (bound' & a & b & c & d & Hd' & T1 & T2 & T3 & _).
      injection Hd' as <-. unfold allTruthy in Et.
      rewrite T1, T2, T3 in Et. discriminate Et.
  - eexists. split; [reflexivity|]. cbn [Res.success].
    split; [discriminate|].
    intros (bound' & a & b & c & d & Hd' & _). discriminate Hd'.
Qed.

Lemma submission_is_judged_field_by_field_witness :
  exists json,
    fst (sendNotificationJson v8 mixed (boot healthy)) = Normal json /\
    Res.success json = true.
Proof.
  destruct (submission_is_judged_field_by_field v8 mixed (boot healthy))
    as [json [Hj H]].
  exists json. split; [exact Hj|]. apply H.
  eexists. exists "new_p"%string, "ING"%string, "5"%string, "null"%string.
  repeat (split; [reflexivity|]). reflexivity.
Defined.

(** X3.  The separator is not escaped: a bar inside a field is read as a
    field boundary, so bodies that differ in where a bar stands give the
    same text. *)
Theorem bar_in_a_field_is_a_boundary (a b c : string)
  (me ex : option string) :
  textOf (Req.mkBody (Some (a ++ "|" ++ b)%string) (Some c) me ex)
  = textOf (Req.mkBody (Some a) (Some (b ++ "|" ++ c)%string) me ex).
Proof.
  unfold textOf. cbn [Req.type Req.title Req.message Req.extraData interpolate].
  now rewrite !string_app_assoc.
Qed.

(** ** Inbound messages *)

(** X4.  An inbound text that is not a real notification is dropped: the
    handler returns and the whole state is as it was. *)
Theorem system_message_is_dropped (ws : Conn) (data : string) (s : Server) :
  isRealNotification data = false ->
  incoming ws data s = (Normal tt, s) /\ step s (OnMessage ws data) = s.
Proof.
  intros H. unfold step. cbn [handle]. rewrite incoming_run, H. now split.
Qed.

Lemma system_message_is_dropped_witness :
  step (mkServer [1; 2] ["wallpaper|a"] healthy [])
       (OnMessage 1 "new_wallpaper|Test|Connection successful!")
  = mkServer [1; 2] ["wallpaper|a"] healthy [].
Proof.
  apply (system_message_is_dropped 1 "new_wallpaper|Test|Connection successful!"
           (mkServer [1; 2] ["wallpaper|a"] healthy [])).
  reflexivity.
Defined.

(** X5.  A real inbound text never makes the handler throw; it is pushed
    on the history unless already there, and [send] is called with it on
    every registered client that is open and is not the sender, each time
    it arrives: a text already in the history is relayed again while the
    history stays as it is. *)
Theorem real_message_is_relayed_every_time (ws : Conn) (data : string)
  (s : Server) :
  isRealNotification data = true ->
  let k := sockets s in
  let s' := step s (OnMessage ws data) in
  fst (incoming ws data s) = Normal tt /\
  messageHistory s' = recorded (messageHistory s) data /\
  (In data (messageHistory s) -> messageHistory s' = messageHistory s) /\
  sentSince s s'
    = map (outputOf k data)
          (filter (fun c => negb (Nat.eqb c ws) && isOpen k c) (clients s)) /\
  clients s'
    = filter (fun c => negb ((negb (Nat.eqb c ws) && isOpen k c)
                             && sendFails k data c)) (clients s).
Proof.
  intros H. cbv zeta. unfold step. cbn [handle].
  rewrite incoming_run, H, broadcastToOthers_run.
  cbn [fst snd clients messageHistory wire sockets withHistory].
  rewrite sentSince_mk. split; [reflexivity|]. split; [reflexivity|].
  split; [|split; reflexivity].
  intros Hin. now apply recorded_present.
Qed.

Lemma real_message_is_relayed_every_time_witness :
  sentSince (mkServer [1; 2; 3] ["wallpaper|a"] healthy [])
            (step (mkServer [1; 2; 3] ["wallpaper|a"] healthy [])
                  (OnMessage 2 "wallpaper|a"))
  = [Frame 1 "wallpaper|a"; Frame 3 "wallpaper|a"].
Proof.
  apply (real_message_is_relayed_every_time 2 "wallpaper|a"
           (mkServer [1; 2; 3] ["wallpaper|a"] healthy [])).
  reflexivity.
Defined.

(** ** The registry *)

Lemma setDelete_In (c d : Conn) (cs : list Conn) :
  In d (setDelete c cs) <-> In d cs /\ d <> c.
Proof.
  unfold setDelete. rewrite filter_In, negb_true_iff, Nat.eqb_neq. tauto.
Qed.

Lemma setDelete_absent (c : Conn) (cs : list Conn) :
  ~ In c cs -> setDelete c cs = cs.
Proof.
  intros H. unfold setDelete. induction cs as [|d cs IH]; [reflexivity|].
  simpl. destruct (Nat.eqb_spec d c) as [->|Hd]; simpl.
  - exfalso. apply H. now left.
  - rewrite IH; [reflexivity|]. intros Hc. apply H. now right.
Qed.

Lemma setDelete_app (c : Conn) (a b : list Conn) :
  setDelete c (a ++ b) = setDelete c a ++ setDelete c b.
Proof. apply filter_app. Qed.

Lemma forEach_keeps_subset {X : Type} (f : X -> Stmt unit) (l : list X)
  (s : Server) :
  (forall x s1, incl (clients (snd (f x s1))) (clients s1)) ->
  incl (clients (snd (forEach l f s))) (clients s).
Proof.
  intros Hf.
  apply (forEach_keeps (fun s1 => incl (clients s1) (clients s))).
  - intros x s1 H c Hc. apply H. eapply Hf, Hc.
  - apply incl_refl.
Qed.

(** Only a connection event puts a connection in the set. *)
Lemma step_clients (s : Server) (e : Event) (c : Conn) :
  In c (clients (step s e)) -> In c (clients s) \/ e = OnConnection c.
Proof.
  unfold step. destruct e as [ws|ws data|ws|ws|body| | |k]; cbn [handle].
  - rewrite connection_run. cbn [snd clients]. unfold setAdd.
    destruct (setHas (clients s) ws); [now left|].
    intros H. apply in_app_or in H as [H | [<- | []]]; [now left | now right].
  - rewrite incoming_run. destruct (isRealNotification data); [|now left].
    rewrite broadcastToOthers_run. cbn [snd clients withHistory].
    intros H. left. now apply filter_In in H.
  - intros H. left. now apply setDelete_In in H.
  - intros H. left. now apply setDelete_In in H.
  - unfold bind. rewrite sendNotification_run.
    destruct (incomplete body); [now left|].
    destruct (isRealNotification (textOf body)); [|now left].
    cbv zeta. rewrite broadcastToAll_run. unfold ret.
    cbn [snd clients withHistory]. intros H. left. now apply filter_In in H.
  - intros H. left. revert c H. unfold cleanUp. apply forEach_keeps_subset.
    intros x s1 d Hd. now apply setDelete_In in Hd.
  - intros H. left. revert c H. unfold keepAlive, clientsForEach.
    apply forEach_keeps_subset. intros x s1 d. unfold bind, getReadyState.
    destruct (isOPEN (readyState (sockets s1 x))); [|trivial].
    unfold tryCatch, ping. destruct (pingThrows (sockets s1 x)); [|trivial].
    intros Hd. now apply setDelete_In in Hd.
  - now left.
Qed.

(** The wire only grows. *)
Lemma step_wire (s : Server) (e : Event) :
  wire (step s e) = wire s ++ sentSince s (step s e).
Proof.
  assert (H : exists outs, wire (step s e) = wire s ++ outs).
  { unfold step. destruct e as [ws|ws data|ws|ws|body| | |k]; cbn [handle].
    - rewrite connection_run. now eexists.
    - rewrite incoming_run. destruct (isRealNotification data).
      + rewrite broadcastToOthers_run. now eexists.
      + exists []. now rewrite app_nil_r.
    - exists []. cbn. now rewrite app_nil_r.
    - exists []. cbn. now rewrite app_nil_r.
    - unfold bind. rewrite sendNotification_run.
      destruct (incomplete body); [exists []; cbn; now rewrite app_nil_r|].
      destruct (isRealNotification (textOf body));
        [|exists []; cbn; now rewrite app_nil_r].
      cbv zeta. rewrite broadcastToAll_run. now eexists.
    - exists []. destruct (cleanUp_keeps s) as [_ [-> _]]. now rewrite app_nil_r.
    - exists []. destruct (keepAlive_keeps s) as [_ [-> _]]. now rewrite app_nil_r.
    - exists []. cbn. now rewrite app_nil_r. }
  destruct H as [outs H]. now rewrite (sentSince_app s _ outs H).
Qed.

Lemma run_cons (s : Server) (e : Event) (es : list Event) :
  run s (e :: es) = run (step s e) es.
Proof. reflexivity. Qed.

Lemma run_wire (s : Server) (es : list Event) :
  wire (run s es) = wire s ++ sentSince s (run s es).
Proof.
  revert s. induction es as [|e es IH]; intros s.
  - cbn. unfold sentSince. now rewrite skipn_all, app_nil_r.
  - rewrite run_cons.
    assert (H : wire (run (step s e) es)
                = wire s ++ (sentSince s (step s e)
                               ++ sentSince (step s e) (run (step s e) es))).
    { now rewrite IH, step_wire at 1; rewrite <- app_assoc. }
    now rewrite (sentSince_app s _ _ H).
Qed.

Lemma sentSince_run_cons (s : Server) (e : Event) (es : list Event) :
  sentSince s (run s (e :: es))
  = sentSince s (step s e) ++ sentSince (step s e) (run (step s e) es).
Proof.
  rewrite run_cons. apply sentSince_app.
  now rewrite run_wire, step_wire at 1; rewrite <- app_assoc.
Qed.

Lemma silence_outside_the_set (ws : Conn) (es : list Event) (s : Server) :
  ~ In ws (clients s) ->
  Forall (fun e => e <> OnConnection ws) es ->
  ~ In ws (clients (run s es)) /\
  Forall (fun o => target o <> ws) (sentSince s (run s es)).
Proof.
  revert s. induction es as [|e es IH]; intros s Hout Hes.
  - split; [exact Hout|]. unfold sentSince. cbn. rewrite skipn_all. constructor.
  - apply Forall_cons_iff in Hes as [He Hes].
    assert (Hout' : ~ In ws (clients (step s e))).
    { intros H. apply step_clients in H as [H | H]; [now apply Hout | now apply He]. }
    destruct (IH (step s e) Hout' Hes) as [H1 H2].
    split; [exact H1|]. rewrite sentSince_run_cons. apply Forall_app. split.
    + apply Forall_forall. intros o Ho Heq.
      apply step_targets in Ho as [Ho | Ho]; subst; contradiction.
    + exact H2.
Qed.

(** X6.  A connection that is not in the set of clients is sent nothing,
    and stays out of the set, for as long as no connection event comes
    for it: this holds over any sequence of other events, broadcasts and
    timers included. *)
Theorem unregistered_connection_hears_nothing (ws : Conn) (es : list Event)
  (s : Server) :
  ~ In ws (clients s) ->
  Forall (fun e => e <> OnConnection ws) es ->
  ~ In ws (clients (run s es)) /\
  Forall (fun o => target o <> ws) (sentSince s (run s es)).
Proof.
  apply silence_outside_the_set.
Qed.

Lemma unregistered_connection_hears_nothing_witness :
  ~ In 9 (clients (run (mkServer [1; 2] [] healthy [])
                       [OnMessage 1 "wallpaper|a"; OnPost art1; OnKeepAliveTimer])) /\
  Forall (fun o => target o <> 9)
         (sentSince (mkServer [1; 2] [] healthy [])
                    (run (mkServer [1; 2] [] healthy [])
                         [OnMessage 1 "wallpaper|a"; OnPost art1; OnKeepAliveTimer])).
Proof.
  apply (unregistered_connection_hears_nothing 9
           [OnMessage 1 "wallpaper|a"; OnPost art1; OnKeepAliveTimer]
           (mkServer [1; 2] [] healthy [])).
  - cbn. intros [H | [H | []]]; discriminate.
  - repeat constructor; discriminate.
Defined.

(** X7.  After the close or the error event of [ws], [ws] is out of the
    set, the other clients are there in their order, history and wire are
    as they were, a second such event changes nothing more, and nothing is
    sent to [ws] by any later events that do not connect it again. *)
Theorem closed_connection_is_forgotten (ws : Conn) (s : Server)
  (es : list Event) :
  Forall (fun e => e <> OnConnection ws) es ->
  let s' := step s (OnClose ws) in
  step s (OnError ws) = s' /\
  clients s' = filter (fun c => negb (Nat.eqb c ws)) (clients s) /\
  ~ In ws (clients s') /\
  messageHistory s' = messageHistory s /\ wire s' = wire s /\
  step s' (OnClose ws) = s' /\
  Forall (fun o => target o <> ws) (sentSince s' (run s' es)).
Proof.
  intros Hes. cbv zeta.
  assert (Hout : ~ In ws (clients (step s (OnClose ws)))).
  { intros H. apply setDelete_In in H. now destruct H. }
  split; [reflexivity|]. split; [reflexivity|]. split; [exact Hout|].
  split; [reflexivity|]. split; [reflexivity|]. split.
  - unfold step at 1. cbn [handle]. unfold close, clientsDelete. cbn [snd].
    rewrite (setDelete_absent _ _ Hout). now destruct (step s (OnClose ws)).
  - now apply silence_outside_the_set.
Qed.

Lemma closed_connection_is_forgotten_witness :
  Forall (fun o => target o <> 2)
         (sentSince (step (mkServer [1; 2; 3] [] healthy []) (OnClose 2))
                    (run (step (mkServer [1; 2; 3] [] healthy []) (OnClose 2))
                         [OnMessage 1 "wallpaper|a"; OnPost art1])).
Proof.
  apply (closed_connection_is_forgotten 2 (mkServer [1; 2; 3] [] healthy [])
           [OnMessage 1 "wallpaper|a"; OnPost art1]).
  repeat constructor; discriminate.
Defined.

Lemma setHas_In_false (cs : list Conn) (c : Conn) :
  ~ In c cs -> setHas cs c = false.
Proof.
  intros H. destruct (setHas cs c) eqn:E; [|reflexivity].
  now apply setHas_In in E.
Qed.

(** X8.  Joining twice leaves one entry in the set, and joining then
    closing gives back the set as it was before a connection that was not
    in it joined. *)
Theorem join_and_leave (ws : Conn) (s : Server) :
  clients (step (step s (OnConnection ws)) (OnConnection ws))
    = clients (step s (OnConnection ws)) /\
  (~ In ws (clients s) ->
   clients (step (step s (OnConnection ws)) (OnClose ws)) = clients s).
Proof.
  unfold step. cbn [handle]. rewrite !connection_run. cbn [snd clients]. split.
  - unfold setAdd at 1.
    pose proof (setAdd_In ws (clients s)) as H. apply setHas_In in H.
    now rewrite H.
  - intros Hout. unfold close, clientsDelete. cbn [snd clients withClients].
    unfold setAdd. apply setHas_In_false in Hout. rewrite Hout.
    rewrite setDelete_app, setDelete_absent.
    + cbn. rewrite Nat.eqb_refl. cbn. apply app_nil_r.
    + intros H. apply setHas_In in H. congruence.
Qed.

Lemma join_and_leave_witness :
  clients (step (step (mkServer [1; 2] [] healthy []) (OnConnection 5)) (OnClose 5))
  = [1; 2].
Proof.
  apply (proj2 (join_and_leave 5 (mkServer [1; 2] [] healthy []))).
  cbn. intros [H | [H | []]]; discriminate.
Defined.

(** ** The timers *)

Lemma forEach_clientsDelete (l : list Conn) (s : Server) :
  forEach l clientsDelete s =
  (Normal tt,
   withClients (filter (fun c => negb (setHas l c)) (clients s)) s).
Proof.
  revert s. induction l as [|d l IH]; intros s.
  - cbn. unfold ret, withClients. destruct s as [cs h k w]. cbn.
    f_equal. f_equal. induction cs as [|x cs IHc]; [reflexivity|].
    cbn. now rewrite <- IHc.
  - cbn [forEach]. unfold bind, clientsDelete at 1. rewrite IH.
    unfold withClients. cbn [clients messageHistory sockets wire].
    f_equal. f_equal. unfold setDelete. rewrite filter_filter.
    apply filter_ext. intros c. cbn [setHas existsb].
    now rewrite negb_orb.
Qed.

Lemma cleanUp_run (s : Server) :
  cleanUp s = (Normal tt, withClients (filter (isOpen (sockets s)) (clients s)) s).
Proof.
  unfold cleanUp. cbv zeta. rewrite forEach_clientsDelete. f_equal. f_equal.
  apply filter_ext_in. intros c Hc. unfold isOpen.
  destruct (isOPEN (readyState (sockets s c))) eqn:E.
  - apply negb_true_iff. apply setHas_In_false. intros H.
    apply filter_In in H as [_ H]. rewrite E in H. discriminate.
  - apply negb_false_iff. apply setHas_In. apply filter_In. split; [exact Hc|].
    now rewrite E.
Qed.

Lemma filter_idem {A : Type} (f : A -> bool) (l : list A) :
  filter f (filter f l) = filter f l.
Proof.
  rewrite filter_filter. apply filter_ext. intros x. now destruct (f x).
Qed.

(** X9.  The clean-up timer never throws and keeps exactly the clients
    whose socket is OPEN, in their order; history, wire and sockets are
    not touched; run a second time on the same sockets it removes nothing
    more. *)
Theorem cleanUp_keeps_the_open_clients (s : Server) :
  let s' := step s OnCleanUpTimer in
  fst (cleanUp s) = Normal tt /\
  clients s' = filter (isOpen (sockets s)) (clients s) /\
  (forall c, In c (clients s') <->
             In c (clients s) /\ readyState (sockets s c) = OPEN) /\
  messageHistory s' = messageHistory s /\ wire s' = wire s /\
  sockets s' = sockets s /\
  step s' OnCleanUpTimer = s'.
Proof.
  cbv zeta. unfold step. cbn [handle]. rewrite !cleanUp_run. cbn [fst snd].
  split; [reflexivity|]. split; [reflexivity|]. split.
  - intros c. cbn [clients withClients]. rewrite filter_In. unfold isOpen.
    destruct (readyState (sockets s c)); cbn; split; intros [H1 H2];
      split; congruence.
  - repeat (split; [reflexivity|]).
    unfold withClients. cbn [clients messageHistory sockets wire].
    now rewrite filter_idem.
Qed.

Lemma keepAlive_loop (k : Conn -> Socket) (l : list Conn) (s : Server) :
  sockets s = k ->
  forEach l (fun client =>
    r <- getReadyState client ;;
    if isOPEN r then tryCatch (ping client) (fun _ => clientsDelete client)
    else ret tt) s =
  (Normal tt,
   withClients
     (filter (fun c => negb (setHas l c && (isOpen k c && pingFails k c)))
             (clients s)) s).
Proof.
  revert s. induction l as [|d l IH]; intros s Hk.
  - cbn. unfold ret, withClients. destruct s as [cs h k0 w]. cbn.
    f_equal. f_equal. induction cs as [|x cs IHc]; [reflexivity|].
    cbn. now rewrite <- IHc.
  - cbn [forEach]. unfold bind at 1. unfold bind at 1, getReadyState at 1.
    rewrite Hk. unfold isOpen, pingFails.
    destruct (isOPEN (readyState (k d))) eqn:Eo.
    + unfold tryCatch, ping. rewrite Hk.
      destruct (pingThrows (k d)) eqn:Ep.
      * unfold clientsDelete at 1. rewrite IH by (cbn; exact Hk).
        unfold withClients. cbn [clients messageHistory sockets wire].
        f_equal. f_equal. unfold setDelete. rewrite filter_filter.
        apply filter_ext. intros c. cbn [setHas existsb].
        destruct (Nat.eqb_spec c d) as [->|Hc]; cbn.
        -- unfold isOpen, pingFails. now rewrite Eo, Ep.
        -- reflexivity.
      * rewrite IH by exact Hk. f_equal. f_equal.
        apply filter_ext. intros c. cbn [setHas existsb].
        destruct (Nat.eqb_spec c d) as [->|Hc]; cbn; [|reflexivity].
        unfold isOpen, pingFails. rewrite Eo, Ep. cbn.
        now rewrite andb_false_r.
    + unfold ret. rewrite IH by exact Hk. f_equal. f_equal.
      apply filter_ext. intros c. cbn [setHas existsb].
      destruct (Nat.eqb_spec c d) as [->|Hc]; cbn; [|reflexivity].
      unfold isOpen. rewrite Eo. cbn. now rewrite andb_false_r.
Qed.

Lemma keepAlive_run (s : Server) :
  keepAlive s =
  (Normal tt,
   withClients
     (filter (fun c => negb (isOpen (sockets s) c && pingFails (sockets s) c))
             (clients s)) s).
Proof.
  unfold keepAlive, clientsForEach.
  rewrite (keepAlive_loop (sockets s)) by reflexivity.
  f_equal. f_equal. apply filter_ext_in. intros c Hc.
  apply setHas_In in Hc. now rewrite Hc.
Qed.

(** X10.  The keep-alive timer never throws, whatever [ping] does.  It
    removes from the set exactly the clients that are OPEN and whose
    [ping] throws, so a client that is not OPEN is left to the clean-up;
    it sends no frame and leaves the history alone. *)
Theorem keepAlive_drops_failed_pings (s : Server) :
  let k := sockets s in
  let s' := step s OnKeepAliveTimer in
  fst (keepAlive s) = Normal tt /\
  clients s' = filter (fun c => negb (isOpen k c && pingFails k c)) (clients s) /\
  (forall c, In c (clients s) -> isOpen k c = false -> In c (clients s')) /\
  (forall c, In c (clients s) -> pingThrows (k c) = None -> In c (clients s')) /\
  messageHistory s' = messageHistory s /\ wire s' = wire s.
Proof.
  cbv zeta. unfold step. cbn [handle]. rewrite keepAlive_run. cbn [fst snd].
  cbn [clients messageHistory wire withClients].
  split; [reflexivity|]. split; [reflexivity|]. split; [|split; [|now split]].
  - intros c Hc Ho. apply filter_In. split; [exact Hc|]. now rewrite Ho.
  - intros c Hc Hp. apply filter_In. split; [exact Hc|].
    unfold pingFails. rewrite Hp. now rewrite andb_false_r.
Qed.

Lemma keepAlive_drops_failed_pings_witness :
  In 2 (clients (step (mkServer [1; 2; 3] [] worn []) OnKeepAliveTimer)) /\
  clients (step (mkServer [1; 2; 3] [] worn []) OnKeepAliveTimer) = [1; 2].
Proof.
  split.
  - apply (proj1 (proj2 (proj2 (keepAlive_drops_failed_pings
                                  (mkServer [1; 2; 3] [] worn []))))).
    + cbn. tauto.
    + reflexivity.
  - reflexivity.
Defined.

(** X11.  Right after the clean-up timer every registered client is OPEN,
    so a broadcast to all calls [send] once on each client of the set: no
    one registered is passed over. *)
Theorem broadcast_after_cleanUp_reaches_everyone (s : Server)
  (message : string) :
  let s1 := step s OnCleanUpTimer in
  sentSince s1 (snd (broadcastToAll message s1))
  = map (outputOf (sockets s) message) (clients s1).
Proof.
  cbv zeta. unfold step. cbn [handle]. rewrite cleanUp_run. cbn [snd].
  rewrite broadcastToAll_run. cbn [snd]. rewrite sentSince_mk.
  cbn [clients sockets withClients]. now rewrite filter_idem.
Qed.

(** ** The status route *)

Lemma filter_all {A : Type} (f : A -> bool) (l : list A) :
  Forall (fun x => f x = true) l -> filter f l = l.
Proof.
  induction 1 as [|x l Hx _ IH]; cbn; [reflexivity|]. now rewrite Hx, IH.
Qed.

Lemma reachable_onlyReal (s : Server) : reachable s -> onlyReal s.
Proof.
  revert s. apply reachable_ind; [|exact step_onlyReal].
  intros k. split; constructor.
Qed.

Lemma reachable_length (s : Server) :
  reachable s -> List.length (messageHistory s) <= 50.
Proof.
  revert s. apply reachable_ind; [intros k; cbn; lia|].
  exact step_history_length.
Qed.

(** X12.  [GET /status] answers without changing the state: it reports
    the size of the set, the length of the history and the number of its
    entries that pass the classifier, which is never more than the length;
    in a state the server can reach the two numbers are equal and at
    most 50. *)
Theorem status_counts {T : Type} (uptime : T) (timestamp : string)
  (s : Server) :
  exists json,
    getStatus uptime timestamp s = (Normal json, s) /\
    Status.status json = "online"%string /\
    Status.clients json = List.length (clients s) /\
    Status.totalMessages json = List.length (messageHistory s) /\
    Status.realNotifications json
      = List.length (filter isRealNotification (messageHistory s)) /\
    Status.uptime json = uptime /\ Status.timestamp json = timestamp /\
    Status.realNotifications json <= Status.totalMessages json /\
    (reachable s ->
     Status.realNotifications json = Status.totalMessages json /\
     Status.totalMessages json <= 50).
Proof.
  unfold getStatus, bind, getHistory, clientsSize, ret. cbv zeta.
  eexists. split; [reflexivity|]. cbn.
  repeat (split; [reflexivity|]). split; [apply filter_length_le|].
  intros H. split.
  - rewrite filter_all; [reflexivity|]. now apply reachable_onlyReal.
  - now apply reachable_length.
Qed.

Lemma status_counts_witness :
  exists json,
    getStatus 12 "2024-01-01T00:00:00.000Z"
              (run (boot healthy) (map (OnMessage 7) samples)) =
      (Normal json, run (boot healthy) (map (OnMessage 7) samples)) /\
    Status.realNotifications json = Status.totalMessages json /\
    Status.totalMessages json <= 50.
Proof.
  destruct (status_counts 12 "2024-01-01T00:00:00.000Z"
              (run (boot healthy) (map (OnMessage 7) samples)))
    as [json [Hj [_ [_ [_ [_ [_ [_ [_ H]]]]]]]]].
  exists json. split; [exact Hj|]. apply H.
  exists healthy, (map (OnMessage 7) samples). reflexivity.
Defined.

(** ** Joining, again *)

Lemma sliceLast_snoc {A : Type} (n : nat) (l : list A) (x : A) :
  Js.sliceLast (S n) (l ++ [x]) = Js.sliceLast n l ++ [x].
Proof.
  unfold Js.sliceLast. rewrite length_app. cbn [List.length].
  replace (List.length l + 1 - S n) with (List.length l - n) by lia.
  rewrite skipn_app.
  replace (List.length l - n - List.length l) with 0 by lia. reflexivity.
Qed.

(** X13.  In a state the server can reach, the filter applied on joining
    removes nothing: a connection whose [send] does not throw is sent the
    last five entries of the history, or all of them when there are
    fewer, in order. *)
Theorem joiner_gets_the_last_five (s : Server) (ws : Conn) :
  reachable s ->
  (forall m, sendThrows (sockets s ws) m = None) ->
  backfill (messageHistory s) = Js.sliceLast 5 (messageHistory s) /\
  sentSince s (step s (OnConnection ws))
    = map (Frame ws) (Js.sliceLast 5 (messageHistory s)) /\
  List.length (sentSince s (step s (OnConnection ws)))
    = Nat.min 5 (List.length (messageHistory s)).
Proof.
  intros Hr Hs.
  assert (Hb : backfill (messageHistory s) = Js.sliceLast 5 (messageHistory s)).
  { unfold backfill. rewrite filter_all; [reflexivity|].
    now apply reachable_onlyReal. }
  assert (Hsent : sentSince s (step s (OnConnection ws))
                  = map (Frame ws) (Js.sliceLast 5 (messageHistory s))).
  { unfold step. cbn [handle]. rewrite connection_run. cbn [snd].
    rewrite sentSince_mk, replay_healthy; [now rewrite Hb|].
    intros m _. apply Hs. }
  split; [exact Hb|]. split; [exact Hsent|].
  now rewrite Hsent, length_map, sliceLast_length.
Qed.

Lemma joiner_gets_the_last_five_witness :
  sentSince (run (boot healthy) (map (OnMessage 7) (firstn 3 samples)))
            (step (run (boot healthy) (map (OnMessage 7) (firstn 3 samples)))
                  (OnConnection 4))
  = [Frame 4 "wallpaper|0"; Frame 4 "wallpaper|1"; Frame 4 "wallpaper|2"].
Proof.
  apply (joiner_gets_the_last_five
           (run (boot healthy) (map (OnMessage 7) (firstn 3 samples))) 4).
  - exists healthy, (map (OnMessage 7) (firstn 3 samples)). reflexivity.
  - reflexivity.
Defined.

(** X14.  A real text that was not in the history when it was offered is
    the last frame sent to a connection that joins right after, if the
    [send] calls of that connection return. *)
Theorem fresh_text_is_replayed_last (s : Server) (e : Event) (text : string)
  (ws : Conn) :
  offered e = Some text ->
  isRealNotification text = true ->
  ~ In text (messageHistory s) ->
  (forall m, sendThrows (sockets (step s e) ws) m = None) ->
  exists front,
    sentSince (step s e) (step (step s e) (OnConnection ws))
    = front ++ [Frame ws text].
Proof.
  intros He Hreal Hfresh Hs.
  assert (Hh : messageHistory (step s e)
               = Js.sliceLast 49 (messageHistory s) ++ [text]).
  { rewrite step_history, He, Hreal, recorded_fresh by exact Hfresh.
    apply sliceLast_snoc. }
  unfold step at 2. cbn [handle]. rewrite connection_run. cbn [snd].
  rewrite sentSince_mk, replay_healthy by (intros m _; apply Hs).
  unfold backfill. rewrite Hh, filter_app. cbn [filter]. rewrite Hreal.
  rewrite sliceLast_snoc, map_app. now eexists.
Qed.

Lemma fresh_text_is_replayed_last_witness :
  exists front,
    sentSince (step (boot healthy) (OnPost art1))
              (step (step (boot healthy) (OnPost art1)) (OnConnection 4))
    = front ++ [Frame 4 "new_wallpaper|Art1|New wallpaper available|"].
Proof.
  apply (fresh_text_is_replayed_last (boot healthy) (OnPost art1)
           "new_wallpaper|Art1|New wallpaper available|" 4).
  - reflexivity.
  - reflexivity.
  - intros [].
  - reflexivity.
Defined.

(** ** The two producers *)

(** X15.  A complete submission is handled as an inbound message with the
    same text from a connection that is not in the set: both leave the
    same state. *)
Theorem post_is_a_message_from_outside (body : Req.body) (ws : Conn)
  (s : Server) :
  incomplete body = false ->
  ~ In ws (clients s) ->
  step s (OnPost body) = step s (OnMessage ws (textOf body)).
Proof.
  intros Hc Hout. unfold step. cbn [handle]. unfold bind.
  rewrite sendNotification_run, incoming_run, Hc.
  destruct (isRealNotification (textOf body)); [|reflexivity].
  cbv zeta. rewrite broadcastToAll_run, broadcastToOthers_run. unfold ret.
  cbn [snd clients sockets withHistory messageHistory wire].
  assert (Hne : forall c, In c (clients s) -> negb (Nat.eqb c ws) = true).
  { intros c Hin. apply negb_true_iff, Nat.eqb_neq. intros ->. contradiction. }
  f_equal.
  - apply filter_ext_in. intros c Hin. unfold dropped, addressed.
    now rewrite (Hne c Hin).
  - f_equal. f_equal. apply filter_ext_in. intros c Hin. unfold addressed.
    now rewrite (Hne c Hin).
Qed.

Lemma post_is_a_message_from_outside_witness :
  step (mkServer [1; 2] [] oneBroken []) (OnPost art1)
  = step (mkServer [1; 2] [] oneBroken [])
         (OnMessage 9 "new_wallpaper|Art1|New wallpaper available|").
Proof.
  apply (post_is_a_message_from_outside art1 9 (mkServer [1; 2] [] oneBroken [])).
  - reflexivity.
  - cbn. intros [H | [H | []]]; discriminate.
Defined.

(** ** The set of clients *)

Lemma clients_NoDup_witness :
  NoDup (clients (run (boot worn)
                      [OnConnection 1; OnConnection 2; OnConnection 1;
                       OnConnection 3; OnKeepAliveTimer; OnConnection 3])).
Proof.
  apply clients_NoDup. exists worn.
  exists [OnConnection 1; OnConnection 2; OnConnection 1;
          OnConnection 3; OnKeepAliveTimer; OnConnection 3].
  reflexivity.
Defined.

(** ** What is stored does not depend on the transport *)

(** X17.  The history after a sequence of events is decided by the history
    before and by the events alone: two servers that start with the same
    history end with the same history, whatever their clients, their
    sockets and the failures of [send] and [ping] on the way. *)
Theorem history_ignores_the_transport (s1 s2 : Server) (es : list Event) :
  messageHistory s1 = messageHistory s2 ->
  messageHistory (run s1 es) = messageHistory (run s2 es).
Proof.
  revert s1 s2. induction es as [|e es IH]; intros s1 s2 H; [exact H|].
  rewrite !run_cons. apply IH. now rewrite !step_history, H.
Qed.

Lemma history_ignores_the_transport_witness :
  messageHistory
    (run (mkServer [1; 2; 3] [] oneBroken [])
         [OnMessage 1 "wallpaper|a"; OnKeepAliveTimer; OnPost art1])
  = messageHistory
      (run (boot healthy)
           [OnMessage 1 "wallpaper|a"; OnKeepAliveTimer; OnPost art1]).
Proof.
  apply (history_ignores_the_transport (mkServer [1; 2; 3] [] oneBroken [])
           (boot healthy)
           [OnMessage 1 "wallpaper|a"; OnKeepAliveTimer; OnPost art1]).
  reflexivity.
Defined.
